(** * Transaction API: the storage layer and its upload endpoint

    A shallow embedding of [app/storage.py] (class [Database]: [upload_csv],
    [get_summary], [clear]) and of the [/upload] route of [app/main.py].

    What the Python code delegates to libraries is kept at the level at which
    the code observes it:
    - [pd.read_csv(..., chunksize=CHUNK_SIZE)] is an iterator of data frames
      that may raise instead of yielding ([TextFileReader]); a frame holds
      the values pandas has made of the fields of the file;
    - a [sqlite3] connection has the database file ([disk]) and its own view
      of the table, which differs from the file while a transaction is open;
    - every SQL statement and every [commit] may raise (a [backend] says
      which ones do);
    - a [REAL] value is the rational number the double is; [COUNT], [MAX]
      and [MIN] are exact, while [AVG] is computed by the storage engine in
      double arithmetic and is taken from the [backend] as it comes. *)

From Stdlib Require Import List String Ascii Bool Arith ZArith QArith Qround
  Qminmax Lia Lqa DecimalNat DecimalString OrderedTypeEx.
Import ListNotations.

Set Implicit Arguments.

(* ------------------------------------------------------------------ *)
(** ** Python values: message texts, exceptions, outcomes of a call *)

Module Py.

(** The texts the code builds, one constructor per literal or f-string. *)
Inductive text : Type :=
| Lit (s : string)
| Fmt (prefix : string) (e : text)
    (** [f"<prefix>{str(e)}"] *)
| InvalidColumns (expected got : list string)
    (** [f"Invalid columns. Expected: {expected_columns}, Got: {list(chunk.columns)}"] *)
| NoTransactionsFound (user_id : Z) (start_date end_date : string)
    (** [f"No transactions found for user_id {user_id} between {start_date} and {end_date}"] *)
| TransactionsDeleted (rows_deleted : nat).
    (** [f"{rows_deleted} Transactions deleted"] *)

(** Exception classes.  [EmptyDataError] and [ParserError] are the two
    [pd.errors] classes the code names; both derive from [ValueError]. *)
Inductive exc_class : Type :=
| ValueError
| EmptyDataError
| ParserError
| TypeError
| OverflowError
| SqliteError          (** [sqlite3.Error] and its subclasses *)
| OtherException.      (** any other subclass of [Exception] *)

Record exn : Type := Exn { cls : exc_class; str : text }.

Definition isinstance_ValueError (e : exn) : bool :=
  match cls e with
  | ValueError | EmptyDataError | ParserError => true
  | _ => false
  end.

Inductive result (A : Type) : Type :=
| Return (a : A)
| Raise (e : exn).

Arguments Return {A} a.
Arguments Raise {A} e.

End Py.
Import Py.

(* ------------------------------------------------------------------ *)
(** ** The transactions table and the data frames read from a CSV file *)

(** One line of the table
    [transactions(transaction_id TEXT PRIMARY KEY, user_id INTEGER,
     product_id INTEGER, timestamp TEXT, transaction_amount REAL)],
    and one line of a data frame with the same five columns.  No column is
    declared [NOT NULL]; [None] is SQL [NULL] in the table and NaN/NaT in a
    frame (what pandas makes of an empty field or of an NA marker).

    The fields hold values, not the text of the file.  In a frame the two
    ids are the [int32] numbers and the amount is the [float32] number that
    [dtype=] made of the fields, and the timestamp is the datetime that
    [parse_dates=] made, written as [to_sql] stores it
    ([YYYY-MM-DD HH:MM:SS]).  [to_sql] stores these numbers unchanged: an
    [INTEGER] holds every [int32], and the double of a [REAL] holds every
    [float32].  [Z] and [Q] have all these numbers, and more; what is shown
    for every [row] holds of the rows that occur. *)
Record row : Type := Row {
  transaction_id     : option string;
  user_id            : option Z;
  product_id         : option Z;
  timestamp          : option string;
  transaction_amount : option Q
}.

Record DataFrame : Type := Frame {
  columns : list string;
  rows    : list row
}.

(** The iterator [chunks] returned by [pd.read_csv]: each [next] yields a
    frame, stops, or raises.  An exception raised by [pd.read_csv] itself is
    a reader that raises at once. *)
Inductive TextFileReader : Type :=
| StopIteration
| Yield (chunk : DataFrame) (rest : TextFileReader)
| Raises (e : exn).

(** What the code asks of the storage engine, by the place that asks. *)
Inductive statement : Type :=
| SelectCountBefore          (** [upload_csv], before the [try] *)
| ToSql (n : nat)            (** [chunk.to_sql] of the [n]-th chunk *)
| SelectCountAfter           (** [upload_csv], after the loop *)
| Commit                     (** [connection.commit()] of [upload_csv], of [clear] *)
| SelectSummary              (** [get_summary] *)
| DeleteAll.                 (** [clear] *)

(** The exact sum and the exact quotient of a list of amounts. *)
Definition sql_sum (l : list Q) : Q := fold_right Qplus 0%Q l.

Definition exact_mean (l : list Q) : Q :=
  (sql_sum l / inject_Z (Z.of_nat (List.length l)))%Q.

(** SQLite's own text for a key that is stored already. *)
Definition unique_constraint_failed : exn :=
  Exn SqliteError (Lit "UNIQUE constraint failed: transactions.transaction_id").

(** The storage engine, with what the libraries around it decide.
    - [bk s = Some e]: the engine raises [e] when asked [s].
    - [AVG bk l]: the double that [AVG(transaction_amount)] gives over the
      amounts [l].  SQLite adds and divides doubles, so the result is near
      the exact quotient and need not be it; nothing is assumed of it.
    - [key_clash bk]: what [to_sql] raises when the table refuses a key.
      The class and the text depend on the version of pandas, which hands
      on [sqlite3.IntegrityError] or wraps it. *)
Record backend : Type := Backend {
  raises :> statement -> option exn;
  AVG : list Q -> Q;
  key_clash : exn
}.

(** An engine that never raises.  It averages exactly and words a clash of
    keys as SQLite does. *)
Definition healthy : backend :=
  {| raises := fun _ => None;
     AVG := exact_mean;
     key_clash := unique_constraint_failed |}.

(** The process as the code sees it: the table in [transactions.db] and the
    number of connections opened and not closed. *)
Record world : Type := World {
  transactions     : list row;
  open_connections : nat
}.

(** A connection: [disk] is the committed table, [view] what this
    connection reads, uncommitted writes included. *)
Record connection : Type := Conn {
  disk : list row;
  view : list row
}.

Module Sqlite.

Definition connect (w : world) : connection * world :=
  (Conn (transactions w) (transactions w),
   World (transactions w) (S (open_connections w))).

Definition commit (c : connection) : connection := Conn (view c) (view c).

Definition rollback (c : connection) : connection := Conn (disk c) (disk c).

(** Closing discards what was not committed. *)
Definition close (c : connection) (w : world) : world :=
  World (disk c) (pred (open_connections w)).

(** [PRIMARY KEY] on a [TEXT] column: two lines clash when both keys are
    not [NULL] and equal. *)
Definition same_key (r r' : row) : bool :=
  match transaction_id r, transaction_id r' with
  | Some k, Some k' => String.eqb k k'
  | _, _ => false
  end.

Definition pk_conflict (t : list row) (r : row) : bool :=
  existsb (same_key r) t.

(** [executemany] of the [INSERT]: line by line, [None] at the first line
    that violates the primary key. *)
Fixpoint executemany_insert (t : list row) (new : list row) : option (list row) :=
  match new with
  | [] => Some t
  | r :: rest =>
      if pk_conflict t r then None
      else executemany_insert (t ++ [r]) rest
  end.

(** [sqlite3] binds a Python [int] as a 64-bit integer, and raises
    [OverflowError] on an [int] outside that range. *)
Definition fits_int64 (z : Z) : bool :=
  (-9223372036854775808 <=? z)%Z && (z <=? 9223372036854775807)%Z.

Definition int_too_large : exn :=
  Exn OverflowError (Lit "Python int too large to convert to SQLite INTEGER").

End Sqlite.

(* ------------------------------------------------------------------ *)
(** ** app/storage.py *)

Module Database.
Import Sqlite.

#[warnings="-abstract-large-number"]
Definition CHUNK_SIZE : nat := 10000.

Record UploadResponse : Type := {
  success        : bool;
  message        : text;
  rows_processed : Z
  (* processing_time_seconds is wall-clock time and is left out *)
}.

Record SummaryResponse : Type := {
  s_user_id         : Z;
  transaction_count : nat;
  max_amount        : Q;
  min_amount        : Q;
  mean_amount       : Q;   (* the two-place decimal of [round(avg, 2)] *)
  start_date        : string;
  end_date          : string
}.

Record ClearResponse : Type := {
  c_success : bool;
  c_message : text
}.

Definition expected_columns : list string :=
  ["transaction_id"; "user_id"; "product_id"; "timestamp"; "transaction_amount"]%string.

(** [chunk.isnull()] on one line. *)
Definition isnull (r : row) : bool :=
  match transaction_id r, user_id r, product_id r, timestamp r,
        transaction_amount r with
  | Some _, Some _, Some _, Some _, Some _ => false
  | _, _, _, _, _ => true
  end.

(** [chunk['transaction_amount'] <= 0] on one line (false on NaN). *)
Definition amount_le_0 (r : row) : bool :=
  match transaction_amount r with
  | Some a => Qle_bool a 0
  | None => false
  end.

Definition user_id_le_0 (r : row) : bool :=
  match user_id r with Some u => (u <=? 0)%Z | None => false end.

Definition product_id_le_0 (r : row) : bool :=
  match product_id r with Some p => (p <=? 0)%Z | None => false end.

(** [chunk.to_sql('transactions', connection, if_exists='append',
    index=False)].  pandas inserts the frame in a transaction of its own
    ([SQLiteDatabase.run_transaction]): it commits the connection when the
    [executemany] succeeds, rolls it back and raises when it fails, and
    returns at once on a frame without lines. *)
Definition to_sql (bk : backend) (n : nat) (chunk : DataFrame)
    (c : connection) : result unit * connection :=
  match bk (ToSql n) with
  | Some e => (Raise e, c)
  | None =>
      match rows chunk with
      | [] => (Return tt, c)
      | _ =>
          match executemany_insert (view c) (rows chunk) with
          | Some t => (Return tt, commit (Conn (disk c) t))
          | None => (Raise (key_clash bk), rollback c)
          end
      end
  end.

(** The [for chunk in chunks] loop of [upload_csv]; [n] counts the chunks
    already written. *)
Fixpoint for_chunk_in (bk : backend) (n : nat) (first_chunk : bool)
    (chunks : TextFileReader) (c : connection) : result unit * connection :=
  match chunks with
  | StopIteration => (Return tt, c)
  | Raises e => (Raise e, c)
  | Yield chunk rest =>
      if first_chunk
         && negb (if list_eq_dec string_dec (columns chunk) expected_columns
                  then true else false)
      then (Raise (Exn ValueError
                     (InvalidColumns expected_columns (columns chunk))), c)
      else if existsb isnull (rows chunk)
      then (Raise (Exn ValueError (Lit "CSV contains null/empty values")), c)
      else if existsb amount_le_0 (rows chunk)
      then (Raise (Exn ValueError (Lit "Transaction amounts must be positive")), c)
      else if existsb user_id_le_0 (rows chunk)
              || existsb product_id_le_0 (rows chunk)
      then (Raise (Exn ValueError
                     (Lit "User ID and Product ID must be positive")), c)
      else
        match to_sql bk n chunk c with
        | (Return _, c') => for_chunk_in bk (S n) false rest c'
        | (Raise e, c') => (Raise e, c')
        end
  end.

(** The body of the [try]: the loop, the second count, the commit. *)
Definition try_body (bk : backend) (rows_before : nat)
    (chunks : TextFileReader) (c : connection) : result Z * connection :=
  match for_chunk_in bk 0 true chunks c with
  | (Raise e, c') => (Raise e, c')
  | (Return _, c') =>
      match bk SelectCountAfter with
      | Some e => (Raise e, c')
      | None =>
          let rows_after := List.length (view c') in
          let rows_inserted := (Z.of_nat rows_after - Z.of_nat rows_before)%Z in
          match bk Commit with
          | Some e => (Raise e, c')
          | None => (Return rows_inserted, commit c')
          end
      end
  end.

(** The three [except] clauses, in the order of the source. *)
Definition except (e : exn) (c : connection) : exn * connection :=
  match cls e with
  | EmptyDataError => (Exn ValueError (Lit "CSV file is empty"), c)
  | ParserError => (Exn ValueError (Fmt "Invalid CSV format: " (str e)), c)
  | _ => (Exn ValueError (Fmt "ERROR: " (str e)), rollback c)
  end.

Definition upload_csv (bk : backend) (file : TextFileReader) (w : world)
    : result UploadResponse * world :=
  let (connection, w) := connect w in
  match bk SelectCountBefore with
  | Some e => (Raise e, w)        (* raised outside the try: nothing closes *)
  | None =>
      let rows_before := List.length (view connection) in
      match try_body bk rows_before file connection with
      | (Return rows_inserted, connection) =>
          (Return {| success := true;
                     message := Lit "Transactions uploaded successfully";
                     rows_processed := rows_inserted |},
           close connection w)                                (* finally *)
      | (Raise e, connection) =>
          let (e', connection) := except e connection in
          (Raise e', close connection w)                      (* finally *)
      end
  end.

(** *** get_summary *)

(** The [WHERE] clause: [user_id = ? AND timestamp >= ? AND timestamp <= ?].
    [TEXT] values compare byte by byte, a proper prefix first; a comparison
    with [NULL] is not true. *)
Definition where_clause (user : Z) (start_date end_date : string) (r : row)
    : bool :=
  match user_id r, timestamp r with
  | Some u, Some t =>
      (u =? user)%Z && (start_date <=? t)%string && (t <=? end_date)%string
  | _, _ => false
  end.

(** The values an aggregate over [transaction_amount] ranges over: [NULL]s
    are skipped. *)
Definition amounts (t : list row) : list Q :=
  flat_map (fun r => match transaction_amount r with
                     | Some a => [a]
                     | None => []
                     end) t.

Fixpoint sql_max (l : list Q) : option Q :=
  match l with
  | [] => None
  | a :: l' => Some (match sql_max l' with Some m => Qmax a m | None => a end)
  end.

Fixpoint sql_min (l : list Q) : option Q :=
  match l with
  | [] => None
  | a :: l' => Some (match sql_min l' with Some m => Qmin a m | None => a end)
  end.

(** [AVG] is [NULL] over no value, and the engine's double otherwise. *)
Definition sql_avg (bk : backend) (l : list Q) : option Q :=
  match l with
  | [] => None
  | _ => Some (AVG bk l)
  end.

(** [cursor.fetchone()] for the summary query: one line
    [(COUNT( * ), MAX, MIN, AVG)]. *)
Definition fetch_summary (bk : backend) (t : list row) (user : Z)
    (start_date end_date : string)
    : nat * option Q * option Q * option Q :=
  let matching := filter (where_clause user start_date end_date) t in
  (List.length matching,
   sql_max (amounts matching),
   sql_min (amounts matching),
   sql_avg bk (amounts matching)).

(** Nearest integer, ties to the even one. *)
Definition round_half_even (q : Q) : Z :=
  let f := Qfloor q in
  match ((q - inject_Z f) ?= (1 # 2))%Q with
  | Lt => f
  | Gt => (f + 1)%Z
  | Eq => if Z.even f then f else (f + 1)%Z
  end.

(** Python's [round(x, 2)] on the double [q].  CPython rounds the exact
    value of the double to two decimal places, ties to the even digit, and
    returns the double nearest to that decimal.  [round2 q] is the decimal,
    which is also what the returned double prints as. *)
Definition round2 (q : Q) : Q :=
  (inject_Z (round_half_even (q * 100)) / 100)%Q.

Definition get_summary (bk : backend) (user : Z)
    (start_date end_date : string) (w : world)
    : result SummaryResponse * world :=
  let (connection, w) := connect w in
  (* [cursor.execute] binds the parameters, then runs the statement *)
  if negb (fits_int64 user)
  then (Raise int_too_large, w)     (* no try/finally: nothing closes *)
  else
  match bk SelectSummary with
  | Some e => (Raise e, w)          (* no try/finally: nothing closes *)
  | None =>
      let '(count, mx, mn, avg) :=
        fetch_summary bk (view connection) user start_date end_date in
      let w := close connection w in
      if (count =? 0)%nat
      then (Raise (Exn ValueError
                     (NoTransactionsFound user start_date end_date)), w)
      else
        match mx, mn, avg with
        | Some mx, Some mn, Some avg =>
            (Return {| s_user_id := user;
                       transaction_count := count;
                       max_amount := mx;
                       min_amount := mn;
                       mean_amount := round2 avg;
                       start_date := start_date;
                       end_date := end_date |}, w)
        | _, _, _ =>
            (* round(None, 2) *)
            (Raise (Exn TypeError
               (Lit "type NoneType doesn't define __round__ method")), w)
        end
  end.

(** *** clear *)

Definition clear (bk : backend) (w : world) : result ClearResponse * world :=
  let (connection, w) := connect w in
  match bk DeleteAll with
  | Some e => (Raise e, w)          (* no try/finally: nothing closes *)
  | None =>
      let rowcount := List.length (view connection) in   (* set by the DELETE *)
      let connection := Conn (disk connection) [] in
      match bk Commit with
      | Some e => (Raise e, w)      (* nothing closes, nothing is deleted *)
      | None =>
          let connection := commit connection in
          let rows_deleted := rowcount in                (* cursor.rowcount *)
          (Return {| c_success := true;
                     c_message := TransactionsDeleted rows_deleted |},
           close connection w)
      end
  end.

End Database.

(* ------------------------------------------------------------------ *)
(** ** pandas on a file that parses *)

(** A CSV file as [pd.read_csv] reads it when every field converts: no
    bytes at all, or a header line and the data lines below it.  [lines]
    are the values that pandas makes of the fields of the five columns the
    code names (see [row]), [None] for a column that the header lacks; the
    file itself may spell them in other ways.
    A file with a field that does not convert ([user_id] 2147483648, or
    [abc]) is none of these: its reader raises. *)
Inductive csv_file : Type :=
| ZeroBytes
| Csv (header : list string) (lines : list row).

Module Pandas.

(** Frames of [size] lines, the last one shorter; [fuel] bounds the number
    of frames. *)
Fixpoint chunked (fuel size : nat) (header : list string) (lines : list row)
    : TextFileReader :=
  match fuel, lines with
  | _, [] => StopIteration
  | O, _ :: _ => StopIteration
  | S fuel', _ :: _ =>
      Yield (Frame header (firstn size lines))
            (chunked fuel' size header (skipn size lines))
  end.

(** What [parse_dates=['timestamp']] raises on a header without that
    column. *)
Definition missing_parse_dates_column : exn :=
  Exn ValueError (Lit "Missing column provided to 'parse_dates': 'timestamp'").

(** [pd.read_csv(file.file, chunksize=CHUNK_SIZE, ...,
    parse_dates=['timestamp'])]: [EmptyDataError] on a file without a header
    line; a [ValueError] on a header without the column [timestamp], raised
    before any line is read; one frame without lines on a file with a header
    line only; else frames of [CHUNK_SIZE] lines. *)
Definition read_csv (f : csv_file) : TextFileReader :=
  match f with
  | ZeroBytes => Raises (Exn EmptyDataError (Lit "No columns to parse from file"))
  | Csv header lines =>
      if negb (existsb (String.eqb "timestamp") header)
      then Raises missing_parse_dates_column
      else
        match lines with
        | [] => Yield (Frame header []) StopIteration
        | _ => chunked (List.length lines) Database.CHUNK_SIZE header lines
        end
  end.

End Pandas.

(* ------------------------------------------------------------------ *)
(** ** app/main.py: the routes *)

Module Main.

Inductive http (A : Type) : Type :=
| Ok200 (payload : A)
| HTTPException (status_code : nat) (detail : text).

Arguments Ok200 {A} payload.
Arguments HTTPException {A} status_code detail.

Definition status {A} (r : http A) : nat :=
  match r with
  | Ok200 _ => 200
  | HTTPException code _ => code
  end.

(** [filename.endswith(suffix)] *)
Definition endswith (filename suffix : string) : bool :=
  let n := String.length filename in
  let k := String.length suffix in
  (k <=? n)%nat && String.eqb (substring (n - k) k filename) suffix.

Definition upload (bk : backend) (filename : string) (file : TextFileReader)
    (w : world) : http Database.UploadResponse * world :=
  if negb (endswith filename ".csv")
  then (HTTPException 400 (Fmt "File must be CSV. Got: " (Lit filename)), w)
  else
    match Database.upload_csv bk file w with
    | (Return r, w') => (Ok200 r, w')
    | (Raise e, w') =>
        if isinstance_ValueError e
        then (HTTPException 400 (Fmt "Invalid columns. " (str e)), w')
        else (HTTPException 500 (Fmt "Server error: " (str e)), w')
    end.

(** The module-level [db = Database()]: an instance of a class that defines
    neither [__bool__] nor [__len__] is true. *)
Definition db : bool := true.

(** The body of the [/summary/{user_id}] route, on the parameters FastAPI
    hands over once they have passed the checks declared in the signature
    ([ge=1], the date pattern). *)
Definition summary (bk : backend) (user_id : Z) (start_date end_date : string)
    (w : world) : http Database.SummaryResponse * world :=
  if (end_date <? start_date)%string          (* start_date > end_date *)
  then (HTTPException 400
          (Lit ("start date (" ++ start_date ++ ") cannot be after end date ("
                ++ end_date ++ ")")), w)
  else
    match Database.get_summary bk user_id start_date end_date w with
    | (Return r, w') => (Ok200 r, w')
    | (Raise e, w') =>
        if isinstance_ValueError e
        then (HTTPException 404 (str e), w')
        else (HTTPException 500 (Fmt "Server Error: " (str e)), w')
    end.

(** The [/clear] route.  An exception of [db.clear()] is not caught here;
    it is the outcome [inr]. *)
Definition clear (bk : backend) (w : world)
    : (Database.ClearResponse + exn) * world :=
  if negb db
  then (inl {| Database.c_success := false;
               Database.c_message := Lit "No data to clear" |}, w)
  else
    match Database.clear bk w with
    | (Return r, w') => (inl r, w')
    | (Raise e, w') => (inr e, w')
    end.

End Main.

(* ------------------------------------------------------------------ *)
(** ** Vocabulary of the specification *)

Import Sqlite Database.

Unset Implicit Arguments.
Local Close Scope Q_scope.
Local Open Scope string_scope.
Local Open Scope list_scope.

(** The stored-data invariant on one line: no field is null, the two ids
    and the amount are strictly positive. *)
Definition valid_row (r : row) : Prop :=
  match r with
  | Row (Some _) (Some u) (Some p) (Some _) (Some a) =>
      (0 < u)%Z /\ (0 < p)%Z /\ (0 < a)%Q
  | _ => False
  end.

(** ... and on the table: every line is valid and no [transaction_id]
    occurs twice. *)
Definition valid_store (t : list row) : Prop :=
  Forall valid_row t /\ NoDup (map transaction_id t).

(** The keys of a table: its [transaction_id]s that are not [NULL]. *)
Definition keys (t : list row) : list string :=
  flat_map (fun r => match transaction_id r with
                     | Some k => [k]
                     | None => []
                     end) t.

(** The three integrity failures of [upload_csv], as they leave it. *)
Definition integrity_messages : list string :=
  ["CSV contains null/empty values";
   "Transaction amounts must be positive";
   "User ID and Product ID must be positive"].

Definition IntegrityViolation (e : exn) : Prop :=
  exists m, In m integrity_messages /\ e = Exn ValueError (Fmt "ERROR: " (Lit m)).

Definition SchemaMismatch (e : exn) : Prop :=
  exists got, e = Exn ValueError
                    (Fmt "ERROR: " (InvalidColumns expected_columns got)).

Definition EmptyInput (e : exn) : Prop :=
  e = Exn ValueError (Lit "CSV file is empty").


(** The operations of the service and a run of several of them. *)
Inductive operation : Type :=
| Upload (bk : backend) (file : TextFileReader)
| Query (bk : backend) (user : Z) (start_date end_date : string)
| Reset (bk : backend).

Definition step (w : world) (op : operation) : world :=
  match op with
  | Upload bk file => snd (upload_csv bk file w)
  | Query bk user s d => snd (get_summary bk user s d w)
  | Reset bk => snd (clear bk w)
  end.

Definition run (ops : list operation) (w : world) : world :=
  fold_left step ops w.

(** A storage engine that raises [e] on statement [s] and on no other. *)
Definition statement_eqb (s s' : statement) : bool :=
  match s, s' with
  | SelectCountBefore, SelectCountBefore => true
  | ToSql n, ToSql n' => (n =? n')%nat
  | SelectCountAfter, SelectCountAfter => true
  | Commit, Commit => true
  | SelectSummary, SelectSummary => true
  | DeleteAll, DeleteAll => true
  | _, _ => false
  end.

Definition fails_on (s : statement) (e : exn) : backend :=
  {| raises := fun s' => if statement_eqb s s' then Some e else None;
     AVG := exact_mean;
     key_clash := unique_constraint_failed |}.

(** A storage engine that raises on nothing it is asked. *)
Definition never_raises (bk : backend) : Prop := forall s, bk s = None.

(** The first frame of the reader, if there is one, carries the expected
    header. *)
Definition expected_header (file : TextFileReader) : Prop :=
  match file with
  | Yield chunk _ => columns chunk = expected_columns
  | StopIteration | Raises _ => True
  end.

Definition database_is_locked : exn :=
  Exn SqliteError (Lit "database is locked").

(** The lines of the frames a reader yields, frame by frame, up to the
    point where it stops or raises. *)
Fixpoint yielded (file : TextFileReader) : list (list row) :=
  match file with
  | Yield chunk rest => rows chunk :: yielded rest
  | StopIteration | Raises _ => []
  end.

(** The headers of those frames. *)
Fixpoint headers (file : TextFileReader) : list (list string) :=
  match file with
  | Yield chunk rest => columns chunk :: headers rest
  | StopIteration | Raises _ => []
  end.

(** The reader comes to its end without raising. *)
Fixpoint stops (file : TextFileReader) : Prop :=
  match file with
  | StopIteration => True
  | Yield _ rest => stops rest
  | Raises _ => False
  end.

(** A line of the given user. *)
Definition of_user (user : Z) (r : row) : bool :=
  match user_id r with
  | Some u => (u =? user)%Z
  | None => false
  end.

(** What the three checks of the loop look for in a line. *)
Definition has_null (r : row) : Prop :=
  transaction_id r = None \/ user_id r = None \/ product_id r = None
  \/ timestamp r = None \/ transaction_amount r = None.

Definition amount_not_positive (r : row) : Prop :=
  exists a, transaction_amount r = Some a /\ (a <= 0)%Q.

Definition id_not_positive (r : row) : Prop :=
  (exists u, user_id r = Some u /\ (u <= 0)%Z)
  \/ (exists p, product_id r = Some p /\ (p <= 0)%Z).

(** *** Sample data *)

(** The lines of the fixture [upload_test_data] of [tests/test_api.py], as
    [to_sql] stores them.  The amount of the first is the [float32] nearest
    to 99.99, which is 13105889 / 2^17 = 99.98999786376953125; the other
    amounts are [float32] numbers as they stand. *)
Definition T001 : row :=
  Row (Some "T001") (Some 42%Z) (Some 100%Z) (Some "2024-01-15 10:00:00")
      (Some (13105889 # 131072)%Q).
Definition T002 : row :=
  Row (Some "T002") (Some 42%Z) (Some 101%Z) (Some "2024-02-20 11:00:00")
      (Some (15050 # 100)%Q).
Definition T003 : row :=
  Row (Some "T003") (Some 42%Z) (Some 102%Z) (Some "2024-03-25 12:00:00")
      (Some (7525 # 100)%Q).
Definition T004 : row :=
  Row (Some "T004") (Some 43%Z) (Some 103%Z) (Some "2024-01-10 13:00:00")
      (Some (200 # 1)%Q).

Definition upload_test_data : list row := [T001; T002; T003; T004].

(** A fifth valid line, with a key of its own. *)
Definition T005 : row :=
  Row (Some "T005") (Some 44%Z) (Some 104%Z) (Some "2024-05-01 09:30:00")
      (Some (125 # 10)%Q).

(** A line that fails the check of the amounts. *)
Definition negative_amount : row :=
  Row (Some "T006") (Some 42%Z) (Some 100%Z) (Some "2024-01-01 10:00:00")
      (Some (-50 # 1)%Q).

(** A line of user 42 on the last day of 2024, at ten o'clock. *)
Definition on_end_day : row :=
  Row (Some "T009") (Some 42%Z) (Some 100%Z) (Some "2024-12-31 10:00:00")
      (Some (10 # 1)%Q).


(** A line with an empty amount and a negative user id. *)
Definition null_and_negative : row :=
  Row (Some "T011") (Some (-1)%Z) (Some 100%Z) (Some "2024-01-01 10:00:00") None.

(** A header with the five expected columns, two of them in the other
    order, and a header without the column [timestamp]. *)
Definition swapped_columns : list string :=
  ["user_id"; "transaction_id"; "product_id"; "timestamp"; "transaction_amount"].

Definition no_timestamp_column : list string :=
  ["transaction_id"; "user_id"; "product_id"; "transaction_amount"].

(** The file of the test [test_upload_incorrect_headers]: the header
    [wrong,headers,here] above one line, with none of the five columns. *)
Definition incorrect_headers : csv_file :=
  Csv ["wrong"; "headers"; "here"] [Row None None None None None].

(** [CHUNK_SIZE] valid lines with the keys [T0], [T1], ...: one full
    chunk. *)
Definition nth_line (n : nat) : row :=
  Row (Some ("T" ++ NilEmpty.string_of_uint (Nat.to_uint n))%string)
      (Some 42%Z) (Some 100%Z) (Some "2024-01-15 10:00:00") (Some (1 # 1)%Q).

Definition full_chunk : list row := map nth_line (seq 0 CHUNK_SIZE).

(** The answer of a successful upload of [n] lines. *)
Definition uploaded_successfully (n : nat) : UploadResponse :=
  {| success := true;
     message := Lit "Transactions uploaded successfully";
     rows_processed := Z.of_nat n |}.

(** The answer the test [test_summary_valid_request] expects for user 42. *)
Definition summary_of_user_42 : SummaryResponse :=
  {| s_user_id := 42;
     transaction_count := 3;
     max_amount := (15050 # 100)%Q;
     min_amount := (7525 # 100)%Q;
     mean_amount := (10858 # 100)%Q;
     start_date := "2024-01-01";
     end_date := "2024-12-31" |}.

(** Both the file and the view of a connection hold a valid table. *)
Definition conn_ok (c : connection) : Prop :=
  valid_store (disk c) /\ valid_store (view c).

(* ------------------------------------------------------------------ *)
(** * Properties *)

(** ** Connections and handlers *)

Lemma world_eta (w : world) :
  World (transactions w) (open_connections w) = w.
Proof. destruct w; reflexivity. Qed.

Lemma conn_eta (c : connection) : disk c = view c -> Conn (view c) (view c) = c.
Proof. destruct c; cbn; now intros ->. Qed.

Lemma except_ValueError (e : exn) (c : connection) :
  cls (fst (except e c)) = ValueError.
Proof. unfold except; destruct (cls e); reflexivity. Qed.

Lemma except_disk (e : exn) (c : connection) :
  disk (snd (except e c)) = disk c.
Proof. unfold except; destruct (cls e); reflexivity. Qed.

(** A validation failure is caught by the last [except] clause. *)
Lemma except_plain_ValueError (m : text) (c : connection) :
  except (Exn ValueError m) c = (Exn ValueError (Fmt "ERROR: " m), rollback c).
Proof. reflexivity. Qed.

(** Once the first count has succeeded, [upload_csv] is its [try] body,
    its handlers and its [finally]: the connection is closed and the table
    is what the connection had committed. *)
Lemma upload_csv_in_try (bk : backend) (file : TextFileReader) (w : world) :
  bk SelectCountBefore = None ->
  let out := try_body bk (List.length (transactions w)) file
               (fst (connect w)) in
  upload_csv bk file w =
    (match fst out with
     | Return n => Return {| success := true;
                             message := Lit "Transactions uploaded successfully";
                             rows_processed := n |}
     | Raise e => Raise (fst (except e (snd out)))
     end,
     World (disk (snd out)) (open_connections w)).
Proof.
  intros Hbk. unfold upload_csv. cbn [connect]. rewrite Hbk.
  cbn [fst snd view].
  destruct (try_body _ _ _ _) as [[n | e] c]; cbn [fst snd].
  - reflexivity.
  - pose proof (except_disk e c) as Hd.
    destruct (except e c) as [e' c']. cbn [fst snd] in *.
    unfold close. cbn. now rewrite Hd.
Qed.

(** ** The checks of the loop against [valid_row] *)

Lemma valid_row_checks (r : row) :
  valid_row r <->
  isnull r = false /\ amount_le_0 r = false /\
  user_id_le_0 r = false /\ product_id_le_0 r = false.
Proof.
  destruct r as [[k|] [u|] [p|] [ts|] [a|]];
    unfold valid_row, isnull, amount_le_0, user_id_le_0, product_id_le_0;
    cbn; try (split; [intros [] | intros (H & _); discriminate H]).
  rewrite !Z.leb_gt.
  split.
  - intros (Hu & Hp & Ha). repeat split; try assumption.
    destruct (Qle_bool a 0) eqn:E; [|reflexivity].
    apply Qle_bool_iff in E. exfalso. apply (Qlt_not_le _ _ Ha E).
  - intros (_ & Ha & Hu & Hp). repeat split; try assumption.
    apply Qnot_le_lt. intros E. apply Qle_bool_iff in E. congruence.
Qed.

Lemma existsb_false_Forall {A} (f : A -> bool) (l : list A) :
  existsb f l = false <-> Forall (fun x => f x = false) l.
Proof.
  induction l as [|x l IH]; cbn.
  - split; [constructor | reflexivity].
  - rewrite orb_false_iff, IH. split.
    + intros [? ?]; now constructor.
    + intros H; inversion H; subst; now split.
Qed.

(** The three checks let a chunk through exactly when all its lines are
    valid. *)
Lemma checks_pass_iff (l : list row) :
  Forall valid_row l <->
  existsb isnull l = false /\ existsb amount_le_0 l = false /\
  existsb user_id_le_0 l || existsb product_id_le_0 l = false.
Proof.
  rewrite orb_false_iff, !existsb_false_Forall. split.
  - intros H. repeat split; eapply Forall_impl; try exact H;
      intros r Hr; apply valid_row_checks in Hr; tauto.
  - intros (H1 & H2 & H3 & H4).
    rewrite Forall_forall in *. intros r Hr. apply valid_row_checks.
    repeat split; auto.
Qed.

(** ** The primary key *)

Lemma keys_app (t u : list row) : keys (t ++ u) = keys t ++ keys u.
Proof. unfold keys. apply flat_map_app. Qed.

Lemma pk_conflict_false (t : list row) (r : row) :
  pk_conflict t r = false <->
  match transaction_id r with
  | Some k => ~ In k (keys t)
  | None => True
  end.
Proof.
  unfold pk_conflict, same_key.
  destruct (transaction_id r) as [k|].
  - induction t as [|r' t IH]; cbn.
    + tauto.
    + rewrite orb_false_iff, IH.
      destruct (transaction_id r') as [k'|]; cbn.
      * rewrite String.eqb_neq. intuition congruence.
      * tauto.
  - split; [trivial | intros _].
    induction t as [|r' t IH]; [reflexivity | exact IH].
Qed.

(** An [INSERT] that goes through appends the new lines and keeps the keys
    distinct. *)
Lemma executemany_insert_Some (new t t' : list row) :
  executemany_insert t new = Some t' ->
  t' = t ++ new /\ (NoDup (keys t) -> NoDup (keys t')).
Proof.
  revert t. induction new as [|r new IH]; intros t; cbn.
  - intros [= <-]. now rewrite app_nil_r.
  - destruct (pk_conflict t r) eqn:E; [discriminate|].
    intros H. apply IH in H as [-> Hnd]. split.
    + now rewrite <- app_assoc.
    + intros Ht. apply Hnd. rewrite keys_app. cbn. rewrite app_nil_r.
      apply pk_conflict_false in E.
      destruct (transaction_id r) as [k|].
      * apply NoDup_app; [assumption | repeat constructor; intros [] |].
        intros x Hx [<- | []]. now apply E.
      * now rewrite app_nil_r.
Qed.

(** It goes through when the new keys are distinct and not in the table. *)
Lemma executemany_insert_fresh (new t : list row) :
  NoDup (keys new) ->
  (forall k, In k (keys new) -> ~ In k (keys t)) ->
  executemany_insert t new = Some (t ++ new).
Proof.
  revert t. induction new as [|r new IH]; intros t Hnd Hfresh; cbn.
  - now rewrite app_nil_r.
  - assert (E : pk_conflict t r = false).
    { apply pk_conflict_false. cbn in Hfresh.
      destruct (transaction_id r) as [k|]; [|trivial].
      apply Hfresh. now left. }
    rewrite E, IH.
    + now rewrite <- app_assoc.
    + cbn in Hnd. destruct (transaction_id r); cbn in Hnd;
        [now inversion Hnd | assumption].
    + intros k Hk. rewrite keys_app, in_app_iff. cbn.
      cbn in Hnd, Hfresh.
      destruct (transaction_id r) as [k'|]; cbn in *.
      * intros [H | [<- | []]].
        -- apply (Hfresh k); [now right | assumption].
        -- now inversion Hnd.
      * intros [H | []]. now apply (Hfresh k).
Qed.

(** On valid lines the keys are the [transaction_id] column. *)
Lemma valid_rows_keys (t : list row) :
  Forall valid_row t -> map transaction_id t = map Some (keys t).
Proof.
  induction 1 as [|r t Hr _ IH]; [reflexivity|].
  cbn. rewrite IH.
  destruct r as [[k|] u p ts a]; [reflexivity | destruct Hr].
Qed.

Lemma NoDup_map_Some {A} (l : list A) : NoDup l -> NoDup (map Some l).
Proof.
  induction 1 as [|x l Hx _ IH]; cbn; constructor; [|assumption].
  rewrite in_map_iff. intros (y & [= ->] & Hy). contradiction.
Qed.

Lemma valid_store_keys (t : list row) :
  valid_store t <-> Forall valid_row t /\ NoDup (keys t).
Proof.
  unfold valid_store. split; intros [Hv Hnd]; split; try assumption.
  - rewrite (valid_rows_keys _ Hv) in Hnd. now apply NoDup_map_inv in Hnd.
  - rewrite (valid_rows_keys _ Hv).
    now apply NoDup_map_Some.
Qed.

(** ** One turn of the loop *)

(** The header check fires on the first chunk only, and before anything
    else. *)
Lemma for_chunk_in_header_mismatch (bk : backend) (n : nat)
    (chunk : DataFrame) (rest : TextFileReader) (c : connection) :
  columns chunk <> expected_columns ->
  for_chunk_in bk n true (Yield chunk rest) c =
    (Raise (Exn ValueError (InvalidColumns expected_columns (columns chunk))), c).
Proof.
  intros Hne. cbn [for_chunk_in].
  destruct (list_eq_dec string_dec (columns chunk) expected_columns);
    [contradiction | reflexivity].
Qed.

(** A chunk of valid lines reaches [to_sql]. *)
Lemma for_chunk_in_valid_chunk (bk : backend) (n : nat) (first_chunk : bool)
    (chunk : DataFrame) (rest : TextFileReader) (c : connection) :
  (first_chunk = true -> columns chunk = expected_columns) ->
  Forall valid_row (rows chunk) ->
  for_chunk_in bk n first_chunk (Yield chunk rest) c =
    match to_sql bk n chunk c with
    | (Return _, c') => for_chunk_in bk (S n) false rest c'
    | (Raise e, c') => (Raise e, c')
    end.
Proof.
  intros Hcols Hv. apply checks_pass_iff in Hv as (H1 & H2 & H3).
  cbn [for_chunk_in]. rewrite H1, H2, H3.
  destruct first_chunk; [|reflexivity].
  destruct (list_eq_dec string_dec (columns chunk) expected_columns) as [|Hne];
    [reflexivity | now destruct Hne; apply Hcols].
Qed.

(** A chunk with a line that is not valid stops the loop with one of the
    three integrity messages, before [to_sql] is reached. *)
Lemma for_chunk_in_violation (bk : backend) (n : nat) (first_chunk : bool)
    (chunk : DataFrame) (rest : TextFileReader) (c : connection) :
  (first_chunk = true -> columns chunk = expected_columns) ->
  ~ Forall valid_row (rows chunk) ->
  exists m, In m integrity_messages /\
    for_chunk_in bk n first_chunk (Yield chunk rest) c =
      (Raise (Exn ValueError (Lit m)), c).
Proof.
  intros Hcols Hv. rewrite checks_pass_iff in Hv.
  cbn [for_chunk_in].
  assert (Hhead : first_chunk
            && negb (if list_eq_dec string_dec (columns chunk) expected_columns
                     then true else false) = false).
  { destruct first_chunk; [|reflexivity].
    destruct (list_eq_dec string_dec (columns chunk) expected_columns) as [|Hne];
      [reflexivity | now destruct Hne; apply Hcols]. }
  rewrite Hhead. unfold integrity_messages.
  destruct (existsb isnull (rows chunk)); [eexists; split; [|reflexivity]; cbn; tauto|].
  destruct (existsb amount_le_0 (rows chunk)); [eexists; split; [|reflexivity]; cbn; tauto|].
  destruct (existsb user_id_le_0 (rows chunk) || existsb product_id_le_0 (rows chunk));
    [eexists; split; [|reflexivity]; cbn; tauto|].
  exfalso. apply Hv. repeat split.
Qed.

(** [to_sql] of lines whose keys are new: the lines are appended and
    committed. *)
Lemma to_sql_fresh (bk : backend) (n : nat) (chunk : DataFrame)
    (c : connection) :
  bk (ToSql n) = None ->
  disk c = view c ->
  NoDup (keys (rows chunk)) ->
  (forall k, In k (keys (rows chunk)) -> ~ In k (keys (view c))) ->
  to_sql bk n chunk c =
    (Return tt, Conn (view c ++ rows chunk) (view c ++ rows chunk)).
Proof.
  intros Hbk Hd Hnd Hfresh. unfold to_sql. rewrite Hbk.
  destruct (rows chunk) as [|r l] eqn:E.
  - rewrite app_nil_r. destruct c; cbn in *; now subst.
  - rewrite (executemany_insert_fresh _ _ Hnd Hfresh). reflexivity.
Qed.

(** ** What the loop keeps true of the connection *)

Lemma valid_store_app (t new : list row) :
  valid_store t -> Forall valid_row new -> NoDup (keys (t ++ new)) ->
  valid_store (t ++ new).
Proof.
  intros Ht Hnew Hnd. apply valid_store_keys. split; [|assumption].
  apply Forall_app. split; [apply Ht | assumption].
Qed.

Lemma to_sql_ok (bk : backend) (n : nat) (chunk : DataFrame) (c : connection) :
  Forall valid_row (rows chunk) -> conn_ok c ->
  conn_ok (snd (to_sql bk n chunk c)).
Proof.
  intros Hv [Hd Hw]. unfold to_sql.
  destruct (bk (ToSql n)); [now split|].
  destruct (rows chunk) as [|r l] eqn:E; [now split|].
  rewrite <- E in *. clear E.
  destruct (executemany_insert (view c) (rows chunk)) as [t|] eqn:Hins; cbn.
  - apply executemany_insert_Some in Hins as [-> Hnd].
    assert (valid_store (view c ++ rows chunk)).
    { apply valid_store_app; try assumption.
      apply Hnd. now apply valid_store_keys in Hw. }
    now split.
  - now split.
Qed.

Lemma for_chunk_in_ok (bk : backend) (chunks : TextFileReader) :
  forall (n : nat) (first_chunk : bool) (c : connection),
    conn_ok c -> conn_ok (snd (for_chunk_in bk n first_chunk chunks c)).
Proof.
  induction chunks as [|chunk rest IH|e]; intros n first_chunk c Hc;
    cbn [for_chunk_in]; try assumption.
  destruct (first_chunk && _); [assumption|].
  destruct (existsb isnull (rows chunk)) eqn:H1; [assumption|].
  destruct (existsb amount_le_0 (rows chunk)) eqn:H2; [assumption|].
  destruct (existsb user_id_le_0 (rows chunk) || existsb product_id_le_0 (rows chunk))
    eqn:H3; [assumption|].
  assert (Hv : Forall valid_row (rows chunk)) by (apply checks_pass_iff; auto).
  pose proof (to_sql_ok bk n chunk c Hv Hc) as Hc'.
  destruct (to_sql bk n chunk c) as [[[]|e] c']; cbn [snd] in *.
  - now apply IH.
  - assumption.
Qed.

(** ** A file of valid lines with new keys *)


Lemma NoDup_app_disjoint {A} (l1 l2 : list A) :
  NoDup (l1 ++ l2) -> forall a, In a l1 -> ~ In a l2.
Proof.
  induction l1 as [|x l1 IH]; cbn; intros Hnd a; [intros []|].
  inversion Hnd as [|? ? Hx Hnd']; subst.
  intros [<- | Ha] H2.
  - apply Hx, in_or_app. now right.
  - now apply (IH Hnd' a).
Qed.

(** The loop over a reader that stops, when the lines of its frames are
    all valid and their keys are new: every frame is written, and the table
    grows by exactly the lines of the frames, in their order. *)
Lemma for_chunk_in_stops (bk : backend) (file : TextFileReader) :
  (forall n, bk (ToSql n) = None) ->
  forall (n : nat) (first_chunk : bool) (c : connection),
    stops file ->
    (first_chunk = true -> expected_header file) ->
    disk c = view c ->
    Forall valid_row (List.concat (yielded file)) ->
    NoDup (keys (List.concat (yielded file))) ->
    (forall k, In k (keys (List.concat (yielded file))) ->
       ~ In k (keys (view c))) ->
    for_chunk_in bk n first_chunk file c =
    (Return tt, Conn (view c ++ List.concat (yielded file))
                     (view c ++ List.concat (yielded file))).
Proof.
  intros Hbk.
  induction file as [|chunk rest IH|e];
    intros n first_chunk c Hstop Hhead Hd Hv Hnd Hfresh.
  - cbn. now rewrite app_nil_r, conn_eta.
  - cbn [yielded List.concat stops expected_header] in *.
    apply Forall_app in Hv as [Hva Hvb].
    rewrite keys_app in Hnd, Hfresh.
    rewrite for_chunk_in_valid_chunk by assumption.
    rewrite to_sql_fresh; auto.
    + rewrite IH; cbn [view disk]; auto.
      * now rewrite <- !app_assoc.
      * discriminate.
      * now apply NoDup_app_remove_l in Hnd.
      * intros k Hk. rewrite keys_app, in_app_iff. intros [H | H].
        -- apply (Hfresh k); [apply in_or_app; now right | assumption].
        -- apply (NoDup_app_disjoint _ _ Hnd k H Hk).
    + now apply NoDup_app_remove_r in Hnd.
    + intros k Hk. apply Hfresh, in_or_app. now left.
  - destruct Hstop.
Qed.

(** An upload of such a reader, with a storage engine that does not raise:
    it returns, and the lines of all frames are appended to the table. *)
Lemma upload_csv_good_reader (bk : backend) (file : TextFileReader)
    (w : world) :
  never_raises bk ->
  stops file ->
  expected_header file ->
  Forall valid_row (List.concat (yielded file)) ->
  NoDup (keys (List.concat (yielded file))) ->
  (forall k, In k (keys (List.concat (yielded file))) ->
     ~ In k (keys (transactions w))) ->
  upload_csv bk file w
  = (Return (uploaded_successfully (List.length (List.concat (yielded file)))),
     World (transactions w ++ List.concat (yielded file)) (open_connections w)).
Proof.
  intros Hbk Hstop Hhead Hv Hnd Hfresh.
  rewrite upload_csv_in_try by apply Hbk.
  unfold try_body. cbn [connect fst].
  rewrite (for_chunk_in_stops bk file (fun n => Hbk (ToSql n)))
    by (cbn [view disk]; auto).
  rewrite (Hbk SelectCountAfter), (Hbk Commit).
  cbn [fst snd view disk commit].
  unfold uploaded_successfully. do 3 f_equal.
  rewrite length_app, Nat2Z.inj_add. lia.
Qed.

Lemma CHUNK_SIZE_nonzero : CHUNK_SIZE <> 0.
Proof. intros H. apply (f_equal (Nat.leb 1)) in H. vm_compute in H. discriminate H. Qed.

(* ------------------------------------------------------------------ *)
(** * The claims *)

Lemma upload_test_data_valid : Forall valid_row upload_test_data.
Proof. repeat constructor. Qed.

Lemma upload_test_data_NoDup : NoDup (map transaction_id upload_test_data).
Proof.
  cbn. repeat constructor; cbn; intros H;
    repeat (destruct H as [H | H]; [discriminate H|]); exact H.
Qed.


Lemma healthy_never_raises : never_raises healthy.
Proof. intros s. reflexivity. Qed.


Lemma existsb_eqb_In (a : string) (l : list string) :
  existsb (String.eqb a) l = true <-> In a l.
Proof.
  rewrite existsb_exists. split.
  - intros (x & Hx & E). apply String.eqb_eq in E. now subst.
  - intros H. exists a. split; [assumption | apply String.eqb_refl].
Qed.

(** A header without the column [timestamp]: pandas raises at once. *)
Lemma read_csv_no_timestamp (header : list string) (lines : list row) :
  ~ In "timestamp" header ->
  Pandas.read_csv (Csv header lines) = Raises Pandas.missing_parse_dates_column.
Proof.
  intros H. unfold Pandas.read_csv.
  destruct (existsb (String.eqb "timestamp") header) eqn:E; [|reflexivity].
  apply existsb_eqb_In in E. contradiction.
Qed.

(** With the expected header pandas yields frames. *)
Lemma read_csv_expected_columns (lines : list row) :
  Pandas.read_csv (Csv expected_columns lines)
  = match lines with
    | [] => Yield (Frame expected_columns []) StopIteration
    | _ => Pandas.chunked (List.length lines) CHUNK_SIZE expected_columns lines
    end.
Proof. reflexivity. Qed.

(** C5. When the first chunk does not carry exactly the five expected
    column names in their order, the upload fails with the invalid-columns
    [ValueError], whatever lines the chunk and the rest of the file hold,
    and leaves the table, and so its row count, as they were; the connection
    is closed.  A header without the column [timestamp] does not get as far
    as a first chunk: pandas refuses it when the file is opened, the upload
    fails with a [ValueError] that carries the text of pandas, and the table
    is as it was as well. *)
Theorem upload_csv_rejects_wrong_header (bk : backend) (w : world) :
  bk SelectCountBefore = None ->
  (forall chunk rest,
     columns chunk <> expected_columns ->
     upload_csv bk (Yield chunk rest) w =
       (Raise (Exn ValueError
                 (Fmt "ERROR: " (InvalidColumns expected_columns (columns chunk)))),
        w)
     /\ SchemaMismatch
          (Exn ValueError
             (Fmt "ERROR: " (InvalidColumns expected_columns (columns chunk)))))
  /\ (forall header lines,
        ~ In "timestamp" header ->
        upload_csv bk (Pandas.read_csv (Csv header lines)) w =
          (Raise (Exn ValueError
                    (Fmt "ERROR: " (str Pandas.missing_parse_dates_column))),
           w)).
Proof.
  intros Hbk. split.
  - intros chunk rest Hne. split; [|now exists (columns chunk)].
    rewrite upload_csv_in_try by assumption.
    unfold try_body.
    rewrite for_chunk_in_header_mismatch by assumption.
    cbn. now rewrite world_eta.
  - intros header lines Hno.
    rewrite read_csv_no_timestamp by assumption.
    rewrite upload_csv_in_try by assumption.
    cbn. now rewrite world_eta.
Qed.

Lemma upload_csv_rejects_wrong_header_witness :
  upload_csv healthy
    (Yield (Frame swapped_columns [T005]) StopIteration)
    (World upload_test_data 0)
  = (Raise (Exn ValueError
              (Fmt "ERROR: " (InvalidColumns expected_columns swapped_columns))),
     World upload_test_data 0)
  /\ upload_csv healthy (Pandas.read_csv incorrect_headers)
       (World upload_test_data 0)
     = (Raise (Exn ValueError
                 (Fmt "ERROR: "
                    (Lit "Missing column provided to 'parse_dates': 'timestamp'"))),
        World upload_test_data 0)
  /\ upload_csv healthy
       (Pandas.read_csv
          (Csv no_timestamp_column
             [Row (Some "T005") (Some 44%Z) (Some 104%Z) None
                  (Some (125 # 10)%Q)]))
       (World upload_test_data 0)
     = (Raise (Exn ValueError
                 (Fmt "ERROR: "
                    (Lit "Missing column provided to 'parse_dates': 'timestamp'"))),
        World upload_test_data 0).
Proof.
  pose (H := upload_csv_rejects_wrong_header healthy (World upload_test_data 0)
               eq_refl).
  split; [|split].
  - refine (proj1 (proj1 H (Frame swapped_columns [T005]) StopIteration _)).
    cbn. discriminate.
  - refine (proj2 H ["wrong"; "headers"; "here"]
              [Row None None None None None] _).
    cbn. intros F. repeat (destruct F as [F | F]; [discriminate F|]). exact F.
  - refine (proj2 H no_timestamp_column _ _).
    cbn. intros F. repeat (destruct F as [F | F]; [discriminate F|]). exact F.
Defined.

(** C3, as stated, fails: a file that is a header line only, with the
    expected header, is accepted, and the caller gets a success with
    [rows_processed = 0]. *)
Lemma header_only_file_is_accepted :
  upload_csv healthy (Pandas.read_csv (Csv expected_columns [])) (World [] 0)
  = (Return (uploaded_successfully 0), World [] 0).
Proof.
  rewrite upload_csv_in_try by reflexivity.
  unfold try_body. rewrite read_csv_expected_columns.
  rewrite for_chunk_in_valid_chunk by (cbn; auto).
  reflexivity.
Qed.

(** C3, amended. A stream of zero bytes fails with the empty-file
    [ValueError] and nothing is written.  A header line without data lines
    is not an empty file for the code: with the expected header the upload
    succeeds with [rows_processed = 0]; nothing is written either. *)
Theorem upload_csv_without_data_lines (w : world) :
  (upload_csv healthy (Pandas.read_csv ZeroBytes) w
   = (Raise (Exn ValueError (Lit "CSV file is empty")), w)
   /\ EmptyInput (Exn ValueError (Lit "CSV file is empty")))
  /\ upload_csv healthy (Pandas.read_csv (Csv expected_columns [])) w
     = (Return (uploaded_successfully 0), w).
Proof.
  repeat split.
  - rewrite upload_csv_in_try by reflexivity. cbn. now rewrite world_eta.
  - rewrite upload_csv_in_try by reflexivity.
    unfold try_body. rewrite read_csv_expected_columns.
    rewrite for_chunk_in_valid_chunk by (cbn; auto).
    cbn. rewrite world_eta. unfold uploaded_successfully.
    do 3 f_equal. lia.
Qed.

(** ** Reset and query *)

(** What [get_summary] does once [user_id] is bound and the statement has
    run: it closes the connection, then looks at the count. *)
Lemma get_summary_unfold (bk : backend) (user : Z) (s d : string) (w : world) :
  fits_int64 user = true ->
  bk SelectSummary = None ->
  get_summary bk user s d w =
  (let matching := filter (where_clause user s d) (transactions w) in
   if (List.length matching =? 0)%nat
   then Raise (Exn ValueError (NoTransactionsFound user s d))
   else match sql_max (amounts matching), sql_min (amounts matching),
              sql_avg bk (amounts matching) with
        | Some mx, Some mn, Some avg =>
            Return {| s_user_id := user;
                      transaction_count := List.length matching;
                      max_amount := mx; min_amount := mn;
                      mean_amount := round2 avg;
                      start_date := s; end_date := d |}
        | _, _, _ =>
            Raise (Exn TypeError
                     (Lit "type NoneType doesn't define __round__ method"))
        end,
   w).
Proof.
  intros Hfit Hbk. unfold get_summary. cbn [connect]. rewrite Hfit, Hbk.
  cbn [negb fetch_summary view].
  cbn zeta. unfold close. cbn [pred open_connections disk].
  rewrite world_eta.
  destruct (_ =? 0)%nat; [reflexivity|].
  destruct (sql_max _) as [mx|]; [|reflexivity].
  destruct (sql_min _) as [mn|]; [|reflexivity].
  destruct (sql_avg _ _) as [avg|]; reflexivity.
Qed.

Lemma get_summary_healthy (user : Z) (s d : string) (w : world) :
  fits_int64 user = true ->
  get_summary healthy user s d w =
  (let matching := filter (where_clause user s d) (transactions w) in
   if (List.length matching =? 0)%nat
   then Raise (Exn ValueError (NoTransactionsFound user s d))
   else match sql_max (amounts matching), sql_min (amounts matching),
              sql_avg healthy (amounts matching) with
        | Some mx, Some mn, Some avg =>
            Return {| s_user_id := user;
                      transaction_count := List.length matching;
                      max_amount := mx; min_amount := mn;
                      mean_amount := round2 avg;
                      start_date := s; end_date := d |}
        | _, _, _ =>
            Raise (Exn TypeError
                     (Lit "type NoneType doesn't define __round__ method"))
        end,
   w).
Proof. intros Hfit. now apply get_summary_unfold. Qed.

(** A [user_id] that does not fit 64 bits: [cursor.execute] raises while
    it binds the parameters, and the connection stays open. *)
Lemma get_summary_overflow (bk : backend) (user : Z) (s d : string)
    (w : world) :
  fits_int64 user = false ->
  get_summary bk user s d w
  = (Raise int_too_large, World (transactions w) (S (open_connections w))).
Proof. intros Hfit. unfold get_summary. cbn [connect]. now rewrite Hfit. Qed.

Lemma get_summary_raise_before_close (bk : backend) (e : exn) (user : Z)
    (s d : string) (w : world) :
  fits_int64 user = true ->
  bk SelectSummary = Some e ->
  get_summary bk user s d w
  = (Raise e, World (transactions w) (S (open_connections w))).
Proof.
  intros Hfit Hbk. unfold get_summary. cbn [connect]. now rewrite Hfit, Hbk.
Qed.

Lemma get_summary_table (bk : backend) (user : Z) (s d : string) (w : world) :
  transactions (snd (get_summary bk user s d w)) = transactions w.
Proof.
  destruct (fits_int64 user) eqn:Hfit;
    [|now rewrite get_summary_overflow].
  destruct (bk SelectSummary) as [e|] eqn:Hbk;
    [now rewrite (get_summary_raise_before_close bk e)|].
  now rewrite get_summary_unfold.
Qed.






(** ** The stored-data invariant *)

Lemma try_body_ok (bk : backend) (rows_before : nat) (file : TextFileReader)
    (c : connection) :
  conn_ok c -> conn_ok (snd (try_body bk rows_before file c)).
Proof.
  intros Hc. unfold try_body.
  pose proof (for_chunk_in_ok bk file 0 true c Hc) as Hc'.
  destruct (for_chunk_in bk 0 true file c) as [[[]|e] c']; cbn [snd] in *.
  - destruct (bk SelectCountAfter); [assumption|].
    destruct (bk Commit); [assumption|].
    cbn. split; apply Hc'.
  - assumption.
Qed.

Lemma upload_csv_keeps_valid (bk : backend) (file : TextFileReader) (w : world) :
  valid_store (transactions w) ->
  valid_store (transactions (snd (upload_csv bk file w))).
Proof.
  intros Hw. destruct (bk SelectCountBefore) as [e|] eqn:Hbk.
  - unfold upload_csv. cbn [connect]. rewrite Hbk. exact Hw.
  - rewrite upload_csv_in_try by assumption. cbn [snd transactions].
    apply try_body_ok. split; exact Hw.
Qed.

Lemma clear_table (bk : backend) (w : world) :
  transactions (snd (clear bk w)) = [] \/
  transactions (snd (clear bk w)) = transactions w.
Proof.
  unfold clear. cbn [connect].
  destruct (bk DeleteAll); [right; reflexivity|].
  destruct (bk Commit); [right | left]; reflexivity.
Qed.

Lemma valid_store_nil : valid_store [].
Proof. split; constructor. Qed.

Lemma step_keeps_valid (w : world) (op : operation) :
  valid_store (transactions w) -> valid_store (transactions (step w op)).
Proof.
  intros Hw. destruct op as [bk file | bk user s d | bk]; cbn [step].
  - now apply upload_csv_keeps_valid.
  - now rewrite get_summary_table.
  - destruct (clear_table bk w) as [-> | ->];
      [apply valid_store_nil | assumption].
Qed.

(** C6. Uploads, queries and resets, whatever the file read and whichever
    statements the storage engine fails on, keep the table valid: ids
    unique, both ids and the amount strictly positive, no field null.  So
    does any sequence of them. *)
Theorem operations_keep_store_valid (w : world) :
  valid_store (transactions w) ->
  (forall op, valid_store (transactions (step w op)))
  /\ (forall ops, valid_store (transactions (run ops w))).
Proof.
  intros Hw. split.
  - intros op. now apply step_keeps_valid.
  - intros ops. revert w Hw. unfold run.
    induction ops as [|op ops IH]; intros w Hw; cbn [fold_left].
    + exact Hw.
    + apply IH. now apply step_keeps_valid.
Qed.

Lemma operations_keep_store_valid_witness :
  valid_store
    (transactions
       (run [Upload healthy (Pandas.read_csv (Csv expected_columns [T005]));
             Upload healthy (Pandas.read_csv (Csv expected_columns [T001]));
             Upload healthy
               (Pandas.read_csv (Csv expected_columns [negative_amount]));
             Query healthy 42 "2024-01-01" "2024-12-31";
             Reset healthy;
             Upload healthy (Pandas.read_csv (Csv expected_columns [T005]))]
            (World upload_test_data 0))).
Proof.
  refine (proj2 (operations_keep_store_valid (World upload_test_data 0) _) _).
  split; [exact upload_test_data_valid | exact upload_test_data_NoDup].
Defined.

(** ** What leaves [upload_csv] *)

(** C10. Once the [try] of [upload_csv] is entered, whatever is raised in
    it (by pandas, by a check of the loop or by the storage engine) leaves
    the method as a plain [ValueError], and the route answers 400, as it
    does for a validation failure; a failure of the storage engine during
    the upload never reaches the 500 branch. *)
Theorem upload_csv_raises_ValueError_only (bk : backend) (filename : string)
    (file : TextFileReader) (w : world) :
  bk SelectCountBefore = None ->
  forall e, fst (upload_csv bk file w) = Raise e ->
    cls e = ValueError
    /\ Main.status (fst (Main.upload bk filename file w)) = 400.
Proof.
  intros Hbk e He.
  assert (Hcls : cls e = ValueError).
  { rewrite upload_csv_in_try in He by assumption. cbn [fst] in He.
    destruct (fst (try_body _ _ _ _)) as [n | e0]; [discriminate He|].
    injection He as <-. apply except_ValueError. }
  split; [assumption|].
  unfold Main.upload. destruct (negb (Main.endswith filename ".csv"));
    [reflexivity|].
  destruct (upload_csv bk file w) as [[r | e'] w']; cbn [fst] in He;
    [discriminate He|].
  injection He as ->. unfold isinstance_ValueError. now rewrite Hcls.
Qed.

Lemma upload_csv_raises_ValueError_only_witness :
  cls (Exn ValueError (Fmt "ERROR: " (Lit "database is locked"))) = ValueError
  /\ Main.status
       (fst (Main.upload (fails_on (ToSql 0) database_is_locked) "test.csv"
               (Pandas.read_csv (Csv expected_columns [T005]))
               (World upload_test_data 0))) = 400.
Proof.
  exact (upload_csv_raises_ValueError_only
           (fails_on (ToSql 0) database_is_locked) "test.csv"
           (Pandas.read_csv (Csv expected_columns [T005]))
           (World upload_test_data 0) eq_refl
           (Exn ValueError (Fmt "ERROR: " (Lit "database is locked")))
           eq_refl).
Defined.

(** ** Connections *)

Lemma upload_csv_closes (bk : backend) (file : TextFileReader) (w : world) :
  bk SelectCountBefore = None ->
  open_connections (snd (upload_csv bk file w)) = open_connections w.
Proof. intros Hbk. now rewrite upload_csv_in_try. Qed.

Lemma get_summary_closes (bk : backend) (user : Z) (s d : string) (w : world) :
  fits_int64 user = true ->
  bk SelectSummary = None ->
  open_connections (snd (get_summary bk user s d w)) = open_connections w.
Proof. intros Hfit Hbk. now rewrite get_summary_unfold. Qed.

Lemma upload_csv_raise_before_try (bk : backend) (e : exn)
    (file : TextFileReader) (w : world) :
  bk SelectCountBefore = Some e ->
  upload_csv bk file w
  = (Raise e, World (transactions w) (S (open_connections w))).
Proof. intros Hbk. unfold upload_csv. cbn [connect]. now rewrite Hbk. Qed.

(** C8 does not hold of the code.  When the statement of [get_summary]
    raises, the error leaves the method and its connection stays open: the
    method has no [finally].  The same happens to [upload_csv] when its
    first count, which is sent before the [try], raises. *)
Lemma connection_left_open_on_error :
  get_summary (fails_on SelectSummary database_is_locked)
    42 "2024-01-01" "2024-12-31" (World upload_test_data 0)
  = (Raise database_is_locked, World upload_test_data 1)
  /\ upload_csv (fails_on SelectCountBefore database_is_locked)
       (Pandas.read_csv (Csv expected_columns [T005]))
       (World upload_test_data 0)
     = (Raise database_is_locked, World upload_test_data 1).
Proof.
  split.
  - now apply get_summary_raise_before_close.
  - now apply upload_csv_raise_before_try.
Qed.

(** ** The date range of [get_summary] *)

Lemma ascii_compare_refl (a : ascii) : Ascii.compare a a = Eq.
Proof. unfold Ascii.compare. apply N.compare_refl. Qed.

(** A text is below each of its extensions ... *)
Lemma leb_extension (s suffix : string) : (s <=? s ++ suffix)%string = true.
Proof.
  unfold String.leb. induction s as [|a s IH]; cbn.
  - now destruct suffix.
  - now rewrite ascii_compare_refl.
Qed.

(** ... and no proper extension of a text is below it. *)
Lemma leb_proper_extension (s suffix : string) :
  suffix <> EmptyString -> (s ++ suffix <=? s)%string = false.
Proof.
  intros Hne. unfold String.leb. induction s as [|a s IH]; cbn.
  - destruct suffix; [contradiction | reflexivity].
  - now rewrite ascii_compare_refl.
Qed.

Lemma where_clause_spec (user : Z) (s d : string) (r : row) :
  where_clause user s d r = true <->
  user_id r = Some user /\
  exists t, timestamp r = Some t
            /\ (s <=? t)%string = true /\ (t <=? d)%string = true.
Proof.
  unfold where_clause.
  destruct (user_id r) as [u|], (timestamp r) as [t|].
  - rewrite !andb_true_iff, Z.eqb_eq. split.
    + intros [[-> Hs] Hd]. split; [reflexivity|]. now exists t.
    + intros [[= ->] (t' & [= <-] & Hs & Hd)]. auto.
  - split; [discriminate | intros [_ (t & [=] & _)]].
  - split; [discriminate | intros [[=] _]].
  - split; [discriminate | intros [[=] _]].
Qed.

(** With no [NULL] amount among the lines, the aggregates exist as soon as
    there is a line. *)
Lemma amounts_valid (t : list row) :
  Forall valid_row t -> List.length (amounts t) = List.length t.
Proof.
  induction 1 as [|r t Hr _ IH]; [reflexivity|].
  destruct r as [k u p ts [a|]].
  - unfold amounts in *. cbn. f_equal. exact IH.
  - destruct k, u, p, ts; destruct Hr.
Qed.

Lemma aggregates_exist (bk : backend) (l : list Q) :
  l <> [] ->
  exists mx mn avg,
    sql_max l = Some mx /\ sql_min l = Some mn /\ sql_avg bk l = Some avg.
Proof.
  destruct l as [|a l]; [contradiction|]. intros _.
  cbn [sql_max sql_min sql_avg]. do 3 eexists. repeat split; reflexivity.
Qed.

(** C2 does not hold of the code.  The line of user 42 is uploaded with a
    timestamp on the last day of 2024; it is stored with its time of day.
    The query of user 42 from [2024-01-01] to [2024-12-31] does not count
    it, and neither does the query of that one day: as a text,
    [2024-12-31 10:00:00] is above [2024-12-31].  Both queries fail with the
    no-transactions error, and the route answers 404. *)
Lemma end_day_line_is_not_counted :
  upload_csv healthy (Yield (Frame expected_columns [on_end_day]) StopIteration)
    (World [] 0)
  = (Return (uploaded_successfully 1), World [on_end_day] 0)
  /\ get_summary healthy 42 "2024-01-01" "2024-12-31" (World [on_end_day] 0)
     = (Raise (Exn ValueError
                 (NoTransactionsFound 42 "2024-01-01" "2024-12-31")),
        World [on_end_day] 0)
  /\ get_summary healthy 42 "2024-12-31" "2024-12-31" (World [on_end_day] 0)
     = (Raise (Exn ValueError
                 (NoTransactionsFound 42 "2024-12-31" "2024-12-31")),
        World [on_end_day] 0)
  /\ Main.status
       (fst (Main.summary healthy 42 "2024-01-01" "2024-12-31"
               (World [on_end_day] 0))) = 404
  /\ Main.status
       (fst (Main.summary healthy 42 "2024-12-31" "2024-12-31"
               (World [on_end_day] 0))) = 404.
Proof. repeat split; reflexivity. Qed.

(** The same for every stored line: a timestamp that continues [end_date]
    with a time of day never matches, whatever the user and [start_date].
    Every line that [upload_csv] stores has such a timestamp. *)
Lemma where_clause_end_day (user : Z) (s d suffix : string) (r : row) :
  suffix <> EmptyString ->
  timestamp r = Some (d ++ suffix)%string ->
  where_clause user s d r = false.
Proof.
  intros Hne Ht. unfold where_clause. rewrite Ht.
  destruct (user_id r) as [u|]; [|reflexivity].
  now rewrite leb_proper_extension, andb_false_r.
Qed.

(** ** The aggregates *)

Lemma sql_min_below (l : list Q) (mn : Q) :
  sql_min l = Some mn -> Forall (fun a => (mn <= a)%Q) l.
Proof.
  revert mn. induction l as [|a l IH]; intros mn; cbn [sql_min];
    [constructor|].
  destruct (sql_min l) as [m|] eqn:E; intros [= <-].
  - constructor; [apply Q.le_min_l|].
    eapply Forall_impl; [|apply (IH m eq_refl)].
    intros b Hb. cbn beta in *. eapply Qle_trans; [apply Q.le_min_r | exact Hb].
  - destruct l; [|discriminate E]. constructor; [apply Qle_refl | constructor].
Qed.

Lemma sql_max_above (l : list Q) (mx : Q) :
  sql_max l = Some mx -> Forall (fun a => (a <= mx)%Q) l.
Proof.
  revert mx. induction l as [|a l IH]; intros mx; cbn [sql_max];
    [constructor|].
  destruct (sql_max l) as [m|] eqn:E; intros [= <-].
  - constructor; [apply Q.le_max_l|].
    eapply Forall_impl; [|apply (IH m eq_refl)].
    intros b Hb. cbn beta in *. eapply Qle_trans; [exact Hb | apply Q.le_max_r].
  - destruct l; [|discriminate E]. constructor; [apply Qle_refl | constructor].
Qed.






Lemma sql_max_In (l : list Q) (mx : Q) : sql_max l = Some mx -> In mx l.
Proof.
  revert mx. induction l as [|a l IH]; intros mx; cbn [sql_max];
    [discriminate|].
  destruct (sql_max l) as [m|]; intros [= <-]; [|now left].
  unfold Qmax, GenericMinMax.gmax.
  destruct (a ?= m)%Q; [now left | right; now apply IH | now left].
Qed.

Lemma sql_min_In (l : list Q) (mn : Q) : sql_min l = Some mn -> In mn l.
Proof.
  revert mn. induction l as [|a l IH]; intros mn; cbn [sql_min];
    [discriminate|].
  destruct (sql_min l) as [m|]; intros [= <-]; [|now left].
  unfold Qmin, GenericMinMax.gmin.
  destruct (a ?= m)%Q; [now left | now left | right; now apply IH].
Qed.

(** What a query that returns has computed, for any storage engine. *)
Lemma get_summary_Return (bk : backend) (user : Z) (s d : string)
    (w w' : world) (resp : SummaryResponse) :
  get_summary bk user s d w = (Return resp, w') ->
  let matching := filter (where_clause user s d) (transactions w) in
  exists mx mn,
    sql_max (amounts matching) = Some mx
    /\ sql_min (amounts matching) = Some mn
    /\ matching <> []
    /\ fits_int64 user = true
    /\ bk SelectSummary = None
    /\ w' = w
    /\ resp = {| s_user_id := user;
                 transaction_count := List.length matching;
                 max_amount := mx; min_amount := mn;
                 mean_amount := round2 (AVG bk (amounts matching));
                 start_date := s; end_date := d |}.
Proof.
  destruct (fits_int64 user) eqn:Hfit;
    [|rewrite get_summary_overflow by assumption; discriminate].
  destruct (bk SelectSummary) as [e|] eqn:Hbk;
    [rewrite (get_summary_raise_before_close bk e) by assumption; discriminate|].
  rewrite get_summary_unfold by assumption. cbn zeta.
  set (matching := filter (where_clause user s d) (transactions w)).
  destruct (List.length matching =? 0)%nat eqn:Hcount; [discriminate|].
  destruct (sql_max (amounts matching)) as [mx|]; [|discriminate].
  destruct (sql_min (amounts matching)) as [mn|]; [|discriminate].
  unfold sql_avg.
  destruct (amounts matching) as [|a l] eqn:Ha; [discriminate|].
  intros [= <- <-]. exists mx, mn. repeat split.
  intros E. rewrite E in Hcount. discriminate Hcount.
Qed.




(** ** Chunks written before a failure *)

Lemma chunked_full_chunk (size fuel : nat) (header : list string)
    (good rest : list row) :
  size <> 0 -> List.length good = size ->
  Pandas.chunked (S fuel) size header (good ++ rest)
  = Yield (Frame header good) (Pandas.chunked fuel size header rest).
Proof.
  intros Hsize Hlen.
  assert (Hf : firstn size (good ++ rest) = good).
  { rewrite firstn_app, Hlen, Nat.sub_diag, firstn_O, app_nil_r.
    rewrite <- Hlen. apply firstn_all. }
  assert (Hs : skipn size (good ++ rest) = rest).
  { rewrite skipn_app, Hlen, Nat.sub_diag. cbn [skipn].
    rewrite <- Hlen, skipn_all. reflexivity. }
  destruct good as [|r good]; [cbn in Hlen; congruence|].
  cbn [Pandas.chunked app]. cbn [app] in Hf, Hs. now rewrite Hf, Hs.
Qed.

(** A full chunk of valid lines with new keys is written and committed by
    [to_sql] before the loop looks at the next chunk. *)
Lemma for_chunk_in_full_chunk (size fuel : nat) (good rest : list row)
    (n : nat) (first_chunk : bool) (c : connection) :
  size <> 0 -> List.length good = size ->
  disk c = view c ->
  Forall valid_row good ->
  NoDup (keys good) ->
  (forall k, In k (keys good) -> ~ In k (keys (view c))) ->
  for_chunk_in healthy n first_chunk
    (Pandas.chunked (S fuel) size expected_columns (good ++ rest)) c
  = for_chunk_in healthy (S n) false
      (Pandas.chunked fuel size expected_columns rest)
      (Conn (view c ++ good) (view c ++ good)).
Proof.
  intros Hsize Hlen Hd Hv Hnd Hfresh.
  rewrite chunked_full_chunk by assumption.
  rewrite for_chunk_in_valid_chunk by (cbn; auto).
  now rewrite to_sql_fresh by (cbn; auto).
Qed.

(** The check of the amounts, on a chunk that is not the first. *)
Lemma for_chunk_in_amount (bk : backend) (n : nat) (chunk : DataFrame)
    (rest : TextFileReader) (c : connection) :
  existsb isnull (rows chunk) = false ->
  existsb amount_le_0 (rows chunk) = true ->
  for_chunk_in bk n false (Yield chunk rest) c
  = (Raise (Exn ValueError (Lit "Transaction amounts must be positive")), c).
Proof. intros H1 H2. cbn [for_chunk_in andb]. now rewrite H1, H2. Qed.

Lemma nth_line_valid (n : nat) : valid_row (nth_line n).
Proof. repeat split. Qed.

Lemma nth_line_key_inj (n m : nat) :
  transaction_id (nth_line n) = transaction_id (nth_line m) -> n = m.
Proof.
  cbn. intros [= H]. apply Unsigned.to_uint_inj.
  apply (f_equal NilEmpty.uint_of_string) in H.
  rewrite !NilEmpty.usu in H. now injection H.
Qed.

Lemma full_chunk_length : List.length full_chunk = CHUNK_SIZE.
Proof. unfold full_chunk. now rewrite length_map, length_seq. Qed.

Lemma full_chunk_valid : Forall valid_row full_chunk.
Proof.
  unfold full_chunk. apply Forall_map, Forall_forall.
  intros n _. apply nth_line_valid.
Qed.

Lemma full_chunk_keys : NoDup (keys full_chunk).
Proof.
  apply valid_store_keys. split; [apply full_chunk_valid|].
  unfold full_chunk. rewrite map_map.
  generalize (seq_NoDup CHUNK_SIZE 0). generalize (seq 0 CHUNK_SIZE).
  induction 1 as [|n l Hn _ IH]; cbn [map]; constructor; [|exact IH].
  rewrite in_map_iff. intros (m & Hm & Hin).
  apply nth_line_key_inj in Hm. now subst.
Qed.

(** C1 does not hold of the code.  The file has [CHUNK_SIZE + 1] lines;
    the last one has a negative amount.  The upload fails with the
    integrity error of the amounts, and the [CHUNK_SIZE] lines of the first
    chunk are in the table after the call: [to_sql] had committed them, and
    the [rollback] of the handler has nothing left to undo. *)
Lemma chunk_before_violation_stays :
  upload_csv healthy
    (Pandas.read_csv (Csv expected_columns (full_chunk ++ [negative_amount])))
    (World [] 0)
  = (Raise (Exn ValueError
              (Fmt "ERROR: " (Lit "Transaction amounts must be positive"))),
     World full_chunk 0)
  /\ List.length (transactions (World [] 0)) = 0
  /\ List.length full_chunk = CHUNK_SIZE
  /\ IntegrityViolation
       (Exn ValueError
          (Fmt "ERROR: " (Lit "Transaction amounts must be positive"))).
Proof.
  split; [|split; [reflexivity | split; [apply full_chunk_length|]]].
  - assert (Hloop :
      for_chunk_in healthy 0 true
        (Pandas.read_csv
           (Csv expected_columns (full_chunk ++ [negative_amount])))
        (Conn [] [])
      = (Raise (Exn ValueError (Lit "Transaction amounts must be positive")),
         Conn full_chunk full_chunk)).
    { rewrite read_csv_expected_columns.
      assert (Hne : exists r l, full_chunk ++ [negative_amount] = r :: l).
      { destruct full_chunk; cbn; eauto. }
      destruct Hne as (r & l & Hne). rewrite Hne, <- Hne. clear r l Hne.
      replace (List.length (full_chunk ++ [negative_amount]))
        with (S (S (pred CHUNK_SIZE)))
        by (rewrite length_app, full_chunk_length; cbn [List.length];
            pose proof CHUNK_SIZE_nonzero; lia).
      rewrite (for_chunk_in_full_chunk CHUNK_SIZE (S (pred CHUNK_SIZE))
                 full_chunk [negative_amount] 0 true (Conn [] [])
                 CHUNK_SIZE_nonzero full_chunk_length eq_refl
                 full_chunk_valid full_chunk_keys)
        by (intros k _ H; exact H).
      cbn [Pandas.chunked view app].
      rewrite firstn_all2
        by (cbn [List.length]; pose proof CHUNK_SIZE_nonzero; lia).
      now rewrite for_chunk_in_amount by reflexivity. }
    unfold upload_csv, try_body.
    cbn [connect healthy view transactions open_connections].
    rewrite Hloop. reflexivity.
  - exists "Transaction amounts must be positive". split; [|reflexivity].
    cbn. tauto.
Qed.

Lemma chunked_cons (size fuel : nat) (header : list string) (r : row)
    (l : list row) :
  Pandas.chunked (S fuel) size header (r :: l)
  = Yield (Frame header (firstn size (r :: l)))
          (Pandas.chunked fuel size header (skipn size (r :: l))).
Proof. reflexivity. Qed.

Lemma for_chunk_in_later_violation (bk : backend) (n : nat)
    (header : list string) (l : list row) (rest : TextFileReader)
    (c : connection) :
  ~ Forall valid_row l ->
  exists m, In m integrity_messages /\
    for_chunk_in bk n false (Yield (Frame header l) rest) c
    = (Raise (Exn ValueError (Lit m)), c).
Proof.
  intros Hbad. apply for_chunk_in_violation; [discriminate | exact Hbad].
Qed.

(** The same for any file: when the first chunk is full, valid and new, and
    the second chunk has a line that is not valid, the upload fails with an
    integrity error and the first chunk stays in the table. *)
Lemma upload_csv_keeps_first_chunk (w : world) (good rest : list row) :
  List.length good = CHUNK_SIZE ->
  Forall valid_row good ->
  NoDup (keys good) ->
  (forall k, In k (keys good) -> ~ In k (keys (transactions w))) ->
  rest <> [] ->
  ~ Forall valid_row (firstn CHUNK_SIZE rest) ->
  exists e,
    upload_csv healthy (Pandas.read_csv (Csv expected_columns (good ++ rest))) w
    = (Raise e, World (transactions w ++ good) (open_connections w))
    /\ IntegrityViolation e.
Proof.
  intros Hlen Hv Hnd Hfresh Hrest Hbad.
  destruct rest as [|r rest]; [contradiction|].
  assert (Hloop : exists m, In m integrity_messages /\
    for_chunk_in healthy 0 true
      (Pandas.read_csv (Csv expected_columns (good ++ r :: rest)))
      (Conn (transactions w) (transactions w))
    = (Raise (Exn ValueError (Lit m)),
       Conn (transactions w ++ good) (transactions w ++ good))).
  { rewrite read_csv_expected_columns.
    assert (Hne : exists x l, good ++ r :: rest = x :: l).
    { destruct good; cbn; eauto. }
    destruct Hne as (x & l & Hne). rewrite Hne, <- Hne. clear x l Hne.
    replace (List.length (good ++ r :: rest))
      with (S (S (pred CHUNK_SIZE + List.length rest)))
      by (rewrite length_app, Hlen; cbn [List.length];
          pose proof CHUNK_SIZE_nonzero; lia).
    rewrite (for_chunk_in_full_chunk CHUNK_SIZE _ good (r :: rest) 0 true
               (Conn (transactions w) (transactions w))
               CHUNK_SIZE_nonzero Hlen eq_refl Hv Hnd Hfresh).
    rewrite chunked_cons.
    apply for_chunk_in_later_violation, Hbad. }
  destruct Hloop as (m & Hm & Hloop).
  exists (Exn ValueError (Fmt "ERROR: " (Lit m))). split; [|now exists m].
  unfold upload_csv, try_body.
  cbn [connect healthy view transactions open_connections].
  rewrite Hloop. reflexivity.
Qed.

(** When the chunk that fails a check is the first one, nothing was
    written and the table is unchanged. *)
Lemma upload_csv_violation_in_first_chunk (bk : backend) (chunk : DataFrame)
    (rest : TextFileReader) (w : world) :
  bk SelectCountBefore = None ->
  columns chunk = expected_columns ->
  ~ Forall valid_row (rows chunk) ->
  exists e,
    upload_csv bk (Yield chunk rest) w = (Raise e, w) /\ IntegrityViolation e.
Proof.
  intros Hbk Hcols Hbad.
  destruct (for_chunk_in_violation bk 0 true chunk rest (fst (connect w))
              (fun _ => Hcols) Hbad) as (m & Hm & Hloop).
  exists (Exn ValueError (Fmt "ERROR: " (Lit m))). split; [|now exists m].
  rewrite upload_csv_in_try by assumption.
  unfold try_body. rewrite Hloop. cbn. now rewrite world_eta.
Qed.

(* ------------------------------------------------------------------ *)
(** * Further properties of the code *)

(** ** What an upload writes *)

(** An [INSERT] goes through only when the new keys are distinct and not
    in the table. *)
Lemma executemany_insert_new (new t t' : list row) :
  executemany_insert t new = Some t' ->
  NoDup (keys new) /\ (forall k, In k (keys new) -> ~ In k (keys t)).
Proof.
  revert t. induction new as [|r new IH]; intros t; cbn [executemany_insert].
  - intros _. split; [constructor | intros k []].
  - destruct (pk_conflict t r) eqn:E; [discriminate|].
    intros H. apply IH in H as [Hnd Hfresh].
    apply pk_conflict_false in E.
    assert (Hk : keys (r :: new)
                 = match transaction_id r with Some k => [k] | None => [] end
                   ++ keys new) by reflexivity.
    rewrite Hk. clear Hk.
    assert (Hfresh' : forall k, In k (keys new) ->
              ~ In k (keys t)
              /\ ~ In k (match transaction_id r with
                         | Some k => [k] | None => [] end)).
    { intros k Hk. specialize (Hfresh k Hk).
      rewrite keys_app, in_app_iff in Hfresh. cbn in Hfresh.
      rewrite app_nil_r in Hfresh. tauto. }
    destruct (transaction_id r) as [kr|]; cbn [app].
    + split.
      * constructor; [|assumption].
        intros Hin. apply (Hfresh' kr Hin). now left.
      * intros k [<- | Hk]; [assumption | now apply Hfresh'].
    + split; [assumption | intros k Hk; now apply Hfresh'].
Qed.

(** [to_sql] is all or nothing: it appends the whole frame and commits, or
    it raises and the connection is as before. *)
Lemma to_sql_outcome (bk : backend) (n : nat) (chunk : DataFrame)
    (c : connection) :
  disk c = view c ->
  (to_sql bk n chunk c
   = (Return tt, Conn (view c ++ rows chunk) (view c ++ rows chunk))
   /\ NoDup (keys (rows chunk))
   /\ (forall k, In k (keys (rows chunk)) -> ~ In k (keys (view c))))
  \/ (exists e, to_sql bk n chunk c = (Raise e, c)).
Proof.
  intros Hd. unfold to_sql.
  destruct (bk (ToSql n)) as [e|]; [right; now exists e|].
  destruct (rows chunk) as [|r l] eqn:E.
  - left. rewrite app_nil_r, conn_eta by assumption.
    repeat split; [constructor | intros k []].
  - rewrite <- E.
    destruct (executemany_insert (view c) (rows chunk)) as [t|] eqn:Hins.
    + left. destruct (executemany_insert_new _ _ _ Hins) as [Hnd Hfresh].
      apply executemany_insert_Some in Hins as [-> _]. now repeat split.
    + right. exists (key_clash bk). unfold rollback.
      now rewrite Hd, conn_eta.
Qed.

(** The loop leaves in the table the lines of the chunks it went through,
    whole chunks only, and every such line had passed the checks. *)
Lemma for_chunk_in_whole_chunks (bk : backend) (file : TextFileReader) :
  forall (n : nat) (first_chunk : bool) (c : connection),
    disk c = view c ->
    disk (snd (for_chunk_in bk n first_chunk file c))
    = view (snd (for_chunk_in bk n first_chunk file c))
    /\ exists k,
         view (snd (for_chunk_in bk n first_chunk file c))
         = view c ++ List.concat (firstn k (yielded file))
         /\ Forall valid_row (List.concat (firstn k (yielded file))).
Proof.
  induction file as [|chunk rest IH|e]; intros n first_chunk c Hd;
    cbn [for_chunk_in snd].
  1, 3: split; [assumption|]; exists 0; cbn; rewrite app_nil_r;
        split; [reflexivity | constructor].
  assert (Hstop : disk c = view c /\
            exists k, view c = view c ++ List.concat (firstn k (yielded (Yield chunk rest)))
                      /\ Forall valid_row
                           (List.concat (firstn k (yielded (Yield chunk rest))))).
  { split; [assumption|]. exists 0. cbn. rewrite app_nil_r.
    split; [reflexivity | constructor]. }
  destruct (first_chunk && _); [exact Hstop|].
  destruct (existsb isnull (rows chunk)) eqn:H1; [exact Hstop|].
  destruct (existsb amount_le_0 (rows chunk)) eqn:H2; [exact Hstop|].
  destruct (existsb user_id_le_0 (rows chunk) || existsb product_id_le_0 (rows chunk))
    eqn:H3; [exact Hstop|].
  assert (Hv : Forall valid_row (rows chunk)) by (apply checks_pass_iff; auto).
  destruct (to_sql_outcome bk n chunk c Hd) as [(-> & _ & _) | (e & ->)];
    [|exact Hstop].
  destruct (IH (S n) false (Conn (view c ++ rows chunk) (view c ++ rows chunk))
              eq_refl) as (Hd' & k & Hk & Hvk).
  split; [exact Hd'|]. exists (S k). cbn [yielded firstn List.concat].
  rewrite Hk. cbn [view]. rewrite <- app_assoc. split; [reflexivity|].
  apply Forall_app. now split.
Qed.

(** X1. Whatever the file and whichever statements fail, an upload only
    appends: the table after the call is the table before followed by the
    lines of the first [k] chunks of the file, for some [k], in their order.
    No stored line is removed or changed, no chunk is written in part, and
    every line written had passed the three checks. *)
Theorem upload_csv_appends_whole_chunks (bk : backend) (file : TextFileReader)
    (w : world) :
  exists k,
    transactions (snd (upload_csv bk file w))
    = transactions w ++ List.concat (firstn k (yielded file))
    /\ Forall valid_row (List.concat (firstn k (yielded file))).
Proof.
  destruct (bk SelectCountBefore) as [e|] eqn:Hbk.
  - exists 0. unfold upload_csv. cbn [connect]. rewrite Hbk. cbn.
    rewrite app_nil_r. split; [reflexivity | constructor].
  - rewrite upload_csv_in_try by assumption. cbn [snd transactions].
    unfold try_body. cbn [connect fst].
    destruct (for_chunk_in_whole_chunks bk file 0 true
                (Conn (transactions w) (transactions w)) eq_refl)
      as (Hd & k & Hk & Hv).
    exists k. split; [|exact Hv]. cbn [view] in Hk.
    destruct (for_chunk_in bk 0 true file _) as [[[]|e] c']; cbn [snd] in *.
    + destruct (bk SelectCountAfter); [cbn [snd]; congruence|].
      destruct (bk Commit); cbn [snd disk commit]; congruence.
    + congruence.
Qed.

(** A turn of the loop that goes on to the next chunk: the header was the
    expected one if this was the first chunk, the lines passed the checks
    and [to_sql] went through. *)
Lemma for_chunk_in_Yield_Return (bk : backend) (n : nat) (first_chunk : bool)
    (chunk : DataFrame) (rest : TextFileReader) (c c' : connection) (u : unit) :
  for_chunk_in bk n first_chunk (Yield chunk rest) c = (Return u, c') ->
  (first_chunk = true -> columns chunk = expected_columns)
  /\ Forall valid_row (rows chunk)
  /\ exists c1, to_sql bk n chunk c = (Return tt, c1)
                /\ for_chunk_in bk (S n) false rest c1 = (Return u, c').
Proof.
  cbn [for_chunk_in].
  destruct (first_chunk
            && negb (if list_eq_dec string_dec (columns chunk) expected_columns
                     then true else false)) eqn:Hhead; [discriminate|].
  destruct (existsb isnull (rows chunk)) eqn:H1; [discriminate|].
  destruct (existsb amount_le_0 (rows chunk)) eqn:H2; [discriminate|].
  destruct (existsb user_id_le_0 (rows chunk) || existsb product_id_le_0 (rows chunk))
    eqn:H3; [discriminate|].
  destruct (to_sql bk n chunk c) as [[[]|e] c1]; [|discriminate].
  intros H. split; [|split].
  - intros ->. cbn in Hhead.
    destruct (list_eq_dec string_dec (columns chunk) expected_columns);
      [assumption | discriminate].
  - apply checks_pass_iff. auto.
  - now exists c1.
Qed.

(** A loop that runs to its end has written every line of every frame. *)
Lemma for_chunk_in_Return (bk : backend) (file : TextFileReader) :
  forall (n : nat) (first_chunk : bool) (c c' : connection) (u : unit),
    disk c = view c ->
    for_chunk_in bk n first_chunk file c = (Return u, c') ->
    c' = Conn (view c ++ List.concat (yielded file))
              (view c ++ List.concat (yielded file))
    /\ Forall valid_row (List.concat (yielded file))
    /\ NoDup (keys (List.concat (yielded file)))
    /\ (forall k, In k (keys (List.concat (yielded file))) ->
          ~ In k (keys (view c))).
Proof.
  induction file as [|chunk rest IH|e]; intros n first_chunk c c' u Hd.
  - cbn. destruct u. intros [= <-]. rewrite app_nil_r, conn_eta by assumption.
    split; [reflexivity|]. split; [constructor|]. split; [constructor|].
    intros k [].
  - intros H. apply for_chunk_in_Yield_Return in H as (_ & Hv & c1 & Hsql & H).
    destruct (to_sql_outcome bk n chunk c Hd) as [(E & Hnd & Hfresh) | (e & E)];
      rewrite E in Hsql; [|discriminate].
    injection Hsql as <-.
    apply IH in H as (-> & Hv' & Hnd' & Hfresh'); [|reflexivity].
    cbn [view yielded List.concat] in *. rewrite <- app_assoc.
    split; [reflexivity|]. split; [apply Forall_app; now split|].
    rewrite keys_app. split.
    + apply NoDup_app; try assumption.
      intros k Hk Hk'. apply (Hfresh' k Hk').
      rewrite keys_app. apply in_or_app. now right.
    + intros k Hk. apply in_app_or in Hk as [Hk | Hk].
      * now apply Hfresh.
      * intros Hin. apply (Hfresh' k Hk).
        rewrite keys_app. apply in_or_app. now left.
  - cbn. discriminate.
Qed.

(** [to_sql] returns only when the storage engine did not raise. *)
Lemma to_sql_Return (bk : backend) (n : nat) (chunk : DataFrame)
    (c c' : connection) (u : unit) :
  to_sql bk n chunk c = (Return u, c') -> bk (ToSql n) = None.
Proof.
  unfold to_sql. destruct (bk (ToSql n)); [discriminate | reflexivity].
Qed.

(** An upload returns only when nothing raised: not the first count, not
    the loop, not the second count, not the commit. *)
Lemma upload_csv_Return_loop (bk : backend) (file : TextFileReader)
    (w w' : world) (resp : UploadResponse) :
  upload_csv bk file w = (Return resp, w') ->
  bk SelectCountBefore = None
  /\ bk SelectCountAfter = None
  /\ bk Commit = None
  /\ exists c',
       for_chunk_in bk 0 true file (Conn (transactions w) (transactions w))
       = (Return tt, c')
       /\ resp = {| success := true;
                    message := Lit "Transactions uploaded successfully";
                    rows_processed :=
                      (Z.of_nat (List.length (view c'))
                       - Z.of_nat (List.length (transactions w)))%Z |}
       /\ w' = World (view c') (open_connections w).
Proof.
  intros H.
  destruct (bk SelectCountBefore) as [e|] eqn:Hbk.
  { unfold upload_csv in H. cbn [connect] in H. rewrite Hbk in H.
    discriminate H. }
  rewrite upload_csv_in_try in H by assumption.
  unfold try_body in H. cbn [connect fst] in H.
  destruct (for_chunk_in bk 0 true file _) as [[[]|e] c'] eqn:Hloop;
    cbn [fst snd] in H; [|discriminate H].
  destruct (bk SelectCountAfter); cbn [fst snd] in H; [discriminate H|].
  destruct (bk Commit); cbn [fst snd disk commit view] in H;
    [discriminate H|].
  injection H as <- <-.
  repeat split. now exists c'.
Qed.

(** What is known of the file and of the table once an upload has
    returned. *)
Lemma upload_csv_Return (bk : backend) (file : TextFileReader) (w w' : world)
    (resp : UploadResponse) :
  upload_csv bk file w = (Return resp, w') ->
  w' = World (transactions w ++ List.concat (yielded file))
             (open_connections w)
  /\ Forall valid_row (List.concat (yielded file))
  /\ expected_header file.
Proof.
  intros H.
  destruct (upload_csv_Return_loop bk file w w' resp H)
    as (_ & _ & _ & c' & Hloop & _ & ->).
  assert (Hhead : expected_header file).
  { destruct file as [|chunk rest|e]; try exact I.
    destruct (for_chunk_in_Yield_Return _ _ _ _ _ _ _ _ Hloop) as (Hc & _).
    exact (Hc eq_refl). }
  apply for_chunk_in_Return in Hloop as (-> & Hv & _ & _); [|reflexivity].
  now repeat split.
Qed.

(** ... and of the storage engine, when there was a first chunk: [to_sql]
    of that chunk did not raise. *)
Lemma upload_csv_Return_backend (bk : backend) (chunk : DataFrame)
    (rest : TextFileReader) (w w' : world) (resp : UploadResponse) :
  upload_csv bk (Yield chunk rest) w = (Return resp, w') ->
  bk SelectCountBefore = None /\ bk (ToSql 0) = None.
Proof.
  intros H.
  destruct (upload_csv_Return_loop bk _ w w' resp H)
    as (Hbk & _ & _ & c' & Hloop & _ & _).
  split; [assumption|].
  destruct (for_chunk_in_Yield_Return _ _ _ _ _ _ _ _ Hloop)
    as (_ & _ & c1 & Hsql & _).
  now apply to_sql_Return in Hsql.
Qed.

(** X2. An upload that returns has written every line of every chunk the
    reader yielded: the table is the old one followed by all of them, in
    order, [rows_processed] is their number, the connection is closed, and
    the file was a good one: its first chunk carried the expected header,
    every line was valid, and the transaction ids were pairwise distinct
    and not in the table. *)
Theorem upload_csv_success_writes_everything (bk : backend)
    (file : TextFileReader) (w w' : world) (resp : UploadResponse) :
  upload_csv bk file w = (Return resp, w') ->
  resp = uploaded_successfully (List.length (List.concat (yielded file)))
  /\ w' = World (transactions w ++ List.concat (yielded file))
                (open_connections w)
  /\ Forall valid_row (List.concat (yielded file))
  /\ NoDup (keys (List.concat (yielded file)))
  /\ (forall k, In k (keys (List.concat (yielded file))) ->
        ~ In k (keys (transactions w)))
  /\ match file with
     | Yield chunk _ => columns chunk = expected_columns
     | _ => True
     end.
Proof.
  intros H.
  destruct (upload_csv_Return_loop bk file w w' resp H)
    as (_ & _ & _ & c' & Hloop & -> & ->).
  assert (Hhead : match file with
                  | Yield chunk _ => columns chunk = expected_columns
                  | _ => True
                  end).
  { destruct file as [|chunk rest|e]; try exact I.
    destruct (for_chunk_in_Yield_Return _ _ _ _ _ _ _ _ Hloop) as (Hc & _).
    exact (Hc eq_refl). }
  apply for_chunk_in_Return in Hloop as (-> & Hv & Hnd & Hfresh);
    [|reflexivity].
  cbn [view] in *.
  repeat split; try assumption.
  unfold uploaded_successfully. f_equal.
  rewrite length_app, Nat2Z.inj_add. lia.
Qed.

Lemma upload_csv_success_writes_everything_witness :
  uploaded_successfully 1
  = uploaded_successfully
      (List.length
         (List.concat (yielded (Pandas.read_csv (Csv expected_columns [T005])))))
  /\ World (upload_test_data ++ [T005]) 0
     = World (transactions (World upload_test_data 0)
              ++ List.concat
                   (yielded (Pandas.read_csv (Csv expected_columns [T005]))))
             (open_connections (World upload_test_data 0)).
Proof.
  destruct (upload_csv_success_writes_everything healthy
              (Pandas.read_csv (Csv expected_columns [T005]))
              (World upload_test_data 0) (World (upload_test_data ++ [T005]) 0)
              (uploaded_successfully 1) eq_refl) as (H1 & H2 & _).
  split; [exact H1 | exact H2].
Defined.

(** ** Which readers are accepted *)

(** X4. With a storage engine that does not raise, an upload whose reader
    comes to its end is accepted exactly when the first frame carries the
    expected header, every line of every frame is valid, and the
    transaction ids are pairwise distinct and not yet in the table. *)
Theorem upload_csv_accepts_iff (bk : backend) (file : TextFileReader)
    (w : world) :
  never_raises bk ->
  stops file ->
  (exists resp w', upload_csv bk file w = (Return resp, w'))
  <->
  expected_header file
  /\ Forall valid_row (List.concat (yielded file))
  /\ NoDup (keys (List.concat (yielded file)))
  /\ (forall k, In k (keys (List.concat (yielded file))) ->
        ~ In k (keys (transactions w))).
Proof.
  intros Hbk Hstop. split.
  - intros (resp & w' & H).
    destruct (upload_csv_Return bk file w w' resp H) as (_ & Hv & Hhead).
    destruct (upload_csv_Return_loop bk file w w' resp H)
      as (_ & _ & _ & c' & Hloop & _ & _).
    apply for_chunk_in_Return in Hloop as (_ & _ & Hnd & Hfresh);
      [|reflexivity].
    repeat split; assumption.
  - intros (Hhead & Hv & Hnd & Hfresh).
    rewrite upload_csv_good_reader by assumption. eauto.
Qed.

Lemma upload_csv_accepts_iff_witness :
  exists resp w',
    upload_csv healthy
      (Yield (Frame expected_columns [T005]) StopIteration)
      (World upload_test_data 0)
    = (Return resp, w').
Proof.
  refine (proj2 (upload_csv_accepts_iff healthy
                   (Yield (Frame expected_columns [T005]) StopIteration)
                   (World upload_test_data 0) healthy_never_raises I) _).
  split; [reflexivity|]. split; [repeat constructor|].
  split; [cbn; repeat constructor; intros []|].
  intros k [<- | []]. cbn.
  intros H; repeat (destruct H as [H | H]; [discriminate H|]); exact H.
Defined.

(** The text that leaves [upload_csv] when what was raised in its [try] is
    [e]. *)
Definition as_ValueError (e : exn) : exn :=
  Exn ValueError
    match cls e with
    | EmptyDataError => Lit "CSV file is empty"
    | ParserError => Fmt "Invalid CSV format: " (str e)
    | _ => Fmt "ERROR: " (str e)
    end.

Lemma except_as_ValueError (e : exn) (c : connection) :
  fst (except e c) = as_ValueError e.
Proof. unfold except, as_ValueError. destruct (cls e); reflexivity. Qed.

(** A chunk of valid lines with a key that is already stored, or that
    occurs twice in the chunk, is refused by the table, and nothing of the
    chunk is written. *)
Lemma for_chunk_in_key_clash (bk : backend) (n : nat) (first_chunk : bool)
    (chunk : DataFrame) (rest : TextFileReader) (c : connection) :
  bk (ToSql n) = None ->
  disk c = view c ->
  (first_chunk = true -> columns chunk = expected_columns) ->
  Forall valid_row (rows chunk) ->
  ~ (NoDup (keys (rows chunk))
     /\ forall k, In k (keys (rows chunk)) -> ~ In k (keys (view c))) ->
  for_chunk_in bk n first_chunk (Yield chunk rest) c = (Raise (key_clash bk), c).
Proof.
  intros Hbk Hd Hcols Hv Hclash.
  rewrite for_chunk_in_valid_chunk by assumption.
  destruct (to_sql_outcome bk n chunk c Hd) as [(_ & Hnd & Hfresh) | (e & E)].
  - destruct Hclash. now split.
  - rewrite E. f_equal. f_equal.
    unfold to_sql in E. rewrite Hbk in E.
    destruct (rows chunk) as [|r l] eqn:Hr; [discriminate E|].
    rewrite <- Hr in E.
    destruct (executemany_insert (view c) (rows chunk)); [discriminate E|].
    now injection E.
Qed.

Lemma upload_csv_key_clash (bk : backend) (chunk : DataFrame)
    (rest : TextFileReader) (w : world) :
  bk SelectCountBefore = None ->
  bk (ToSql 0) = None ->
  columns chunk = expected_columns ->
  Forall valid_row (rows chunk) ->
  ~ (NoDup (keys (rows chunk))
     /\ forall k, In k (keys (rows chunk)) -> ~ In k (keys (transactions w))) ->
  upload_csv bk (Yield chunk rest) w = (Raise (as_ValueError (key_clash bk)), w).
Proof.
  intros Hbk Hsql Hcols Hv Hclash.
  rewrite upload_csv_in_try by assumption.
  unfold try_body. cbn [connect fst].
  rewrite for_chunk_in_key_clash by (cbn [view disk]; auto).
  cbn [fst snd]. rewrite except_as_ValueError.
  cbn [disk]. now rewrite world_eta.
Qed.

(** X5. A first chunk of valid lines in which a transaction id is already
    in the table, or occurs twice, makes the upload fail with a
    [ValueError]; its text is that of the exception [to_sql] raised for the
    clash, after "ERROR: ".  The table is unchanged and the connection is
    closed. *)
Theorem upload_csv_rejects_key_clash (bk : backend) (chunk : DataFrame)
    (rest : TextFileReader) (w : world) :
  bk SelectCountBefore = None ->
  bk (ToSql 0) = None ->
  columns chunk = expected_columns ->
  Forall valid_row (rows chunk) ->
  ~ (NoDup (keys (rows chunk))
     /\ forall k, In k (keys (rows chunk)) -> ~ In k (keys (transactions w))) ->
  upload_csv bk (Yield chunk rest) w
  = (Raise (Exn ValueError
              match cls (key_clash bk) with
              | EmptyDataError => Lit "CSV file is empty"
              | ParserError => Fmt "Invalid CSV format: " (str (key_clash bk))
              | _ => Fmt "ERROR: " (str (key_clash bk))
              end),
     w).
Proof.
  intros Hbk Hsql Hcols Hv Hclash.
  rewrite upload_csv_in_try by assumption.
  unfold try_body. cbn [connect fst].
  rewrite for_chunk_in_key_clash by (cbn [view disk]; auto).
  cbn [fst snd]. unfold except.
  destruct (cls (key_clash bk)); cbn; now rewrite world_eta.
Qed.

Lemma upload_csv_rejects_key_clash_witness :
  upload_csv healthy (Yield (Frame expected_columns [T005; T001]) StopIteration)
    (World upload_test_data 0)
  = (Raise (Exn ValueError
              (Fmt "ERROR: " (str (key_clash healthy)))),
     World upload_test_data 0).
Proof.
  refine (upload_csv_rejects_key_clash healthy
            (Frame expected_columns [T005; T001]) StopIteration
            (World upload_test_data 0) eq_refl eq_refl eq_refl _ _).
  - repeat constructor.
  - intros [_ H]. apply (H "T001"); cbn; tauto.
Defined.

(** X6. Uploading the same file a second time is refused.  When an upload
    whose first chunk has a line returns, its lines are in the table, and
    the same upload again fails with a [ValueError] that carries the text
    of the clash of keys; the table still holds each line once. *)
Theorem upload_csv_same_file_twice (bk : backend) (chunk : DataFrame)
    (rest : TextFileReader) (w w1 : world) (resp : UploadResponse) :
  rows chunk <> [] ->
  upload_csv bk (Yield chunk rest) w = (Return resp, w1) ->
  transactions w1
  = transactions w ++ List.concat (yielded (Yield chunk rest))
  /\ upload_csv bk (Yield chunk rest) w1
     = (Raise (Exn ValueError
                 match cls (key_clash bk) with
                 | EmptyDataError => Lit "CSV file is empty"
                 | ParserError =>
                     Fmt "Invalid CSV format: " (str (key_clash bk))
                 | _ => Fmt "ERROR: " (str (key_clash bk))
                 end),
        w1).
Proof.
  intros Hne H.
  destruct (upload_csv_Return_backend bk chunk rest w w1 resp H)
    as [Hbk Hsql].
  destruct (upload_csv_Return bk _ w w1 resp H) as (-> & Hv & Hhead).
  cbn [transactions]. split; [reflexivity|].
  cbn [yielded List.concat] in *.
  apply Forall_app in Hv as [Hv _].
  apply upload_csv_key_clash; try assumption.
  cbn [transactions]. intros [_ Hnew].
  destruct (rows chunk) as [|r l]; [now apply Hne|].
  inversion Hv as [|? ? Hr _]; subst.
  destruct r as [[k|] u p ts a]; [|destruct Hr].
  apply (Hnew k); [now left|].
  rewrite !keys_app. apply in_or_app. right. apply in_or_app. left. now left.
Qed.

Lemma upload_csv_same_file_twice_witness :
  transactions (World [T001; T002] 0)
  = transactions (World [] 0)
    ++ List.concat (yielded (Yield (Frame expected_columns [T001; T002])
                               StopIteration))
  /\ upload_csv healthy (Yield (Frame expected_columns [T001; T002]) StopIteration)
       (World [T001; T002] 0)
     = (Raise (Exn ValueError (Fmt "ERROR: " (str (key_clash healthy)))),
        World [T001; T002] 0).
Proof.
  refine (upload_csv_same_file_twice healthy
            (Frame expected_columns [T001; T002]) StopIteration
            (World [] 0) (World [T001; T002] 0) (uploaded_successfully 2)
            _ eq_refl).
  discriminate.
Defined.

(** ** The order of the checks *)

Lemma isnull_iff (r : row) : isnull r = true <-> has_null r.
Proof.
  unfold isnull, has_null.
  destruct r as [[k|] [u|] [p|] [ts|] [a|]]; cbn;
    (split; [intros H; try discriminate H; tauto
            | intros H; try reflexivity;
              repeat (destruct H as [H | H]; try discriminate H);
              discriminate H]).
Qed.

Lemma amount_le_0_iff (r : row) : amount_le_0 r = true <-> amount_not_positive r.
Proof.
  unfold amount_le_0, amount_not_positive.
  destruct (transaction_amount r) as [a|].
  - rewrite Qle_bool_iff. split.
    + intros H. now exists a.
    + now intros (a' & [= <-] & H).
  - split; [discriminate | intros (a & [=] & _)].
Qed.

Lemma id_le_0_iff (r : row) :
  user_id_le_0 r || product_id_le_0 r = true <-> id_not_positive r.
Proof.
  unfold user_id_le_0, product_id_le_0, id_not_positive.
  rewrite orb_true_iff.
  assert (H : forall o : option Z,
             match o with Some z => (z <=? 0)%Z | None => false end = true
             <-> exists z, o = Some z /\ (z <= 0)%Z).
  { intros [z|].
    - rewrite Z.leb_le. split; [intros Hz; now exists z|].
      now intros (z' & [= <-] & Hz).
    - split; [discriminate | intros (z & [=] & _)]. }
  now rewrite !H.
Qed.

Lemma existsb_Exists {A} (f : A -> bool) (P : A -> Prop) (l : list A) :
  (forall x, f x = true <-> P x) ->
  existsb f l = true <-> Exists P l.
Proof.
  intros H. rewrite existsb_exists, Exists_exists.
  split; intros (x & Hx & Hf); exists x; split; try assumption; now apply H.
Qed.

Lemma existsb_or {A} (f g : A -> bool) (l : list A) :
  existsb f l || existsb g l = existsb (fun x => f x || g x) l.
Proof.
  induction l as [|x l IH]; [reflexivity|]. cbn. rewrite <- IH.
  destruct (f x), (g x), (existsb f l), (existsb g l); reflexivity.
Qed.

(** X7. The checks of a chunk are tried in a fixed order, and the first
    that fails names the error.  For a first chunk with the expected
    header: a null cell anywhere gives the null/empty text, whatever else
    is wrong; without a null cell, an amount that is not positive gives the
    text of the amounts; without either, an id that is not positive gives
    the text of the ids.  In all three cases the table is unchanged. *)
Theorem upload_csv_first_failing_check (bk : backend) (chunk : DataFrame)
    (rest : TextFileReader) (w : world) :
  bk SelectCountBefore = None ->
  columns chunk = expected_columns ->
  (Exists has_null (rows chunk) ->
   upload_csv bk (Yield chunk rest) w
   = (Raise (Exn ValueError
               (Fmt "ERROR: " (Lit "CSV contains null/empty values"))), w))
  /\ (~ Exists has_null (rows chunk) ->
      Exists amount_not_positive (rows chunk) ->
      upload_csv bk (Yield chunk rest) w
      = (Raise (Exn ValueError
                  (Fmt "ERROR: " (Lit "Transaction amounts must be positive"))),
         w))
  /\ (~ Exists has_null (rows chunk) ->
      ~ Exists amount_not_positive (rows chunk) ->
      Exists id_not_positive (rows chunk) ->
      upload_csv bk (Yield chunk rest) w
      = (Raise (Exn ValueError
                  (Fmt "ERROR: "
                     (Lit "User ID and Product ID must be positive"))),
         w)).
Proof.
  intros Hbk Hcols.
  rewrite upload_csv_in_try by assumption.
  unfold try_body. cbn [connect fst for_chunk_in].
  destruct (list_eq_dec string_dec (columns chunk) expected_columns);
    [|contradiction].
  cbn [andb negb]. rewrite existsb_or.
  pose proof (existsb_Exists isnull has_null (rows chunk) isnull_iff) as H1.
  pose proof (existsb_Exists amount_le_0 amount_not_positive (rows chunk)
                amount_le_0_iff) as H2.
  pose proof (existsb_Exists (fun r => user_id_le_0 r || product_id_le_0 r)
                id_not_positive (rows chunk) id_le_0_iff) as H3.
  destruct (existsb isnull (rows chunk)).
  { split; [intros _; cbn; now rewrite world_eta|].
    split; intros Hn; destruct Hn; now apply H1. }
  split; [intros Hn; apply H1 in Hn; discriminate Hn|].
  destruct (existsb amount_le_0 (rows chunk)).
  { split; [intros _ _; cbn; now rewrite world_eta|].
    intros _ Hn. destruct Hn. now apply H2. }
  split; [intros _ Hn; apply H2 in Hn; discriminate Hn|].
  intros _ _ Hn. apply H3 in Hn. rewrite Hn. cbn. now rewrite world_eta.
Qed.

Lemma upload_csv_first_failing_check_witness :
  upload_csv healthy
    (Yield (Frame expected_columns [T005; null_and_negative]) StopIteration)
    (World upload_test_data 0)
  = (Raise (Exn ValueError
              (Fmt "ERROR: " (Lit "CSV contains null/empty values"))),
     World upload_test_data 0).
Proof.
  refine (proj1 (upload_csv_first_failing_check healthy
                   (Frame expected_columns [T005; null_and_negative])
                   StopIteration (World upload_test_data 0) eq_refl eq_refl) _).
  right. left. unfold has_null. cbn. tauto.
Defined.

(** ** Connections, and what the methods leave untouched *)

(** X8. Each of the three methods opens one connection, and the number of
    open connections after a call is the number before, or one more.
    [upload_csv] leaves its connection open exactly when its first count,
    sent before the [try], raises; [get_summary] exactly when the user id
    cannot be bound or its statement raises; [clear] exactly when its
    [DELETE] or its [commit] raises. *)
Theorem open_connections_after_call (bk : backend) (w : world) :
  (forall file,
     open_connections (snd (upload_csv bk file w))
     = open_connections w
       + match bk SelectCountBefore with Some _ => 1 | None => 0 end)
  /\ (forall user s d,
        open_connections (snd (get_summary bk user s d w))
        = open_connections w
          + if fits_int64 user
            then match bk SelectSummary with Some _ => 1 | None => 0 end
            else 1)
  /\ open_connections (snd (clear bk w))
     = open_connections w
       + match bk DeleteAll, bk Commit with
         | None, None => 0
         | _, _ => 1
         end.
Proof.
  split; [|split].
  - intros file. destruct (bk SelectCountBefore) as [e|] eqn:Hbk.
    + rewrite (upload_csv_raise_before_try bk e file w Hbk). cbn. lia.
    + rewrite upload_csv_closes by assumption. lia.
  - intros user s d. destruct (fits_int64 user) eqn:Hfit.
    + destruct (bk SelectSummary) as [e|] eqn:Hbk.
      * rewrite (get_summary_raise_before_close bk e user s d w Hfit Hbk).
        cbn. lia.
      * rewrite get_summary_closes by assumption. lia.
    + rewrite get_summary_overflow by assumption. cbn. lia.
  - unfold clear. cbn [connect].
    destruct (bk DeleteAll); [cbn; lia|].
    destruct (bk Commit); cbn; lia.
Qed.

(** X9. A query writes nothing: after [get_summary], and after the
    [/summary] route, the table is the table before, whatever the arguments,
    the outcome and the state of the storage engine. *)
Theorem summary_is_read_only (bk : backend) (user : Z) (s d : string)
    (w : world) :
  transactions (snd (get_summary bk user s d w)) = transactions w
  /\ transactions (snd (Main.summary bk user s d w)) = transactions w.
Proof.
  pose proof (get_summary_table bk user s d w) as H.
  split; [exact H|].
  unfold Main.summary. destruct (d <? s)%string; [reflexivity|].
  destruct (get_summary bk user s d w) as [[r|e] w']; cbn [snd] in *.
  - exact H.
  - destruct (isinstance_ValueError e); exact H.
Qed.

(** X10. The [/clear] route never gives the answer "No data to clear",
    not even on an empty table: whenever it answers, it reports success and
    the number of lines deleted (zero on an empty table), and the table is
    empty afterwards.  It answers when neither the [DELETE] nor the
    [commit] raises.  When the [DELETE] raises, or the [commit] after it,
    the route raises the same exception, no line is deleted and the
    connection stays open. *)
Theorem clear_route_answers (bk : backend) (w : world) :
  (forall r w',
     Main.clear bk w = (inl r, w') ->
     r = {| c_success := true;
            c_message := TransactionsDeleted (List.length (transactions w)) |}
     /\ w' = World [] (open_connections w))
  /\ (bk DeleteAll = None -> bk Commit = None ->
      exists r, Main.clear bk w = (inl r, World [] (open_connections w)))
  /\ (forall e,
        bk DeleteAll = Some e ->
        Main.clear bk w
        = (inr e, World (transactions w) (S (open_connections w))))
  /\ (forall e,
        bk DeleteAll = None -> bk Commit = Some e ->
        Main.clear bk w
        = (inr e, World (transactions w) (S (open_connections w))))
  /\ (forall e w',
        Main.clear bk w = (inr e, w') ->
        (bk DeleteAll = Some e \/ (bk DeleteAll = None /\ bk Commit = Some e))
        /\ w' = World (transactions w) (S (open_connections w))).
Proof.
  unfold Main.clear, Main.db, clear. cbn [negb connect].
  destruct (bk DeleteAll) as [e|]; [|destruct (bk Commit) as [e|]]; cbn.
  - split; [intros r w' [=]|]. split; [discriminate|].
    split; [now intros e' [= <-]|]. split; [discriminate|].
    intros e' w' [= <- <-]. split; [now left | reflexivity].
  - split; [intros r w' [=]|]. split; [discriminate|].
    split; [discriminate|]. split; [now intros e' _ [= <-]|].
    intros e' w' [= <- <-]. split; [now right | reflexivity].
  - split; [intros r w' [= <- <-]; now split|].
    split; [intros _ _; eauto|].
    split; [discriminate|]. split; [discriminate|].
    intros e w' [=].
Qed.

(** ** The aggregates of a query *)

(** X11. The statistics of a query that returns are those of the matching
    lines: [transaction_count] is their number; [max_amount] and
    [min_amount] are amounts of matching lines, and every matching amount
    lies between them; [mean_amount] is the average that the storage engine
    computed over the matching amounts, rounded to two places; the user and
    the two dates are given back as they came. *)
Theorem get_summary_statistics (bk : backend) (user : Z) (s d : string)
    (w w' : world) (resp : SummaryResponse) :
  get_summary bk user s d w = (Return resp, w') ->
  let matching := filter (where_clause user s d) (transactions w) in
  transaction_count resp = List.length matching
  /\ In (max_amount resp) (amounts matching)
  /\ Forall (fun a => (a <= max_amount resp)%Q) (amounts matching)
  /\ In (min_amount resp) (amounts matching)
  /\ Forall (fun a => (min_amount resp <= a)%Q) (amounts matching)
  /\ mean_amount resp = round2 (AVG bk (amounts matching))
  /\ s_user_id resp = user /\ start_date resp = s /\ end_date resp = d.
Proof.
  intros H matching.
  destruct (get_summary_Return bk user s d w w' resp H)
    as (mx & mn & Hmx & Hmn & _ & _ & _ & _ & ->).
  fold matching in Hmx, Hmn.
  cbn [transaction_count max_amount min_amount mean_amount s_user_id
       start_date end_date].
  repeat split.
  - now apply sql_max_In.
  - now apply sql_max_above.
  - now apply sql_min_In.
  - now apply sql_min_below.
Qed.

Lemma get_summary_statistics_witness :
  transaction_count summary_of_user_42
  = List.length (filter (where_clause 42 "2024-01-01" "2024-12-31")
                   upload_test_data)
  /\ In (max_amount summary_of_user_42)
        (amounts (filter (where_clause 42 "2024-01-01" "2024-12-31")
                    upload_test_data))
  /\ In (min_amount summary_of_user_42)
        (amounts (filter (where_clause 42 "2024-01-01" "2024-12-31")
                    upload_test_data)).
Proof.
  destruct (get_summary_statistics healthy 42 "2024-01-01" "2024-12-31"
              (World upload_test_data 0) (World upload_test_data 0)
              summary_of_user_42 eq_refl) as (H1 & H2 & _ & H3 & _).
  exact (conj H1 (conj H2 H3)).
Defined.

(** ** Users and ranges *)

Lemma filter_filter_implied {A} (f g : A -> bool) (l : list A) :
  (forall x, f x = true -> g x = true) ->
  filter f (filter g l) = filter f l.
Proof.
  intros H. induction l as [|x l IH]; [reflexivity|]. cbn.
  destruct (g x) eqn:Hg; cbn.
  - now rewrite IH.
  - destruct (f x) eqn:Hf; [|exact IH].
    apply H in Hf. congruence.
Qed.

Lemma where_clause_of_user (user : Z) (s d : string) (r : row) :
  where_clause user s d r = true -> of_user user r = true.
Proof.
  unfold where_clause, of_user.
  destruct (user_id r), (timestamp r); try discriminate.
  rewrite !andb_true_iff. tauto.
Qed.

(** X12. The answer to a query for a user depends on the lines of that
    user only: two tables that hold the same lines of the user, in the same
    order, give the same answer, whatever lines of other users they hold. *)
Theorem get_summary_ignores_other_users (user : Z) (s d : string)
    (w1 w2 : world) :
  filter (of_user user) (transactions w1)
  = filter (of_user user) (transactions w2) ->
  fst (get_summary healthy user s d w1) = fst (get_summary healthy user s d w2).
Proof.
  intros H. destruct (fits_int64 user) eqn:Hfit;
    [|now rewrite !get_summary_overflow].
  rewrite !get_summary_healthy by assumption. cbn [fst]. cbn zeta.
  rewrite <- (filter_filter_implied (where_clause user s d) (of_user user)
                (transactions w1)) by apply where_clause_of_user.
  rewrite <- (filter_filter_implied (where_clause user s d) (of_user user)
                (transactions w2)) by apply where_clause_of_user.
  now rewrite H.
Qed.

Lemma get_summary_ignores_other_users_witness :
  fst (get_summary healthy 42 "2024-01-01" "2024-12-31"
         (World upload_test_data 0))
  = fst (get_summary healthy 42 "2024-01-01" "2024-12-31"
           (World [T005; T001; T002; T003] 3)).
Proof.
  exact (get_summary_ignores_other_users 42 "2024-01-01" "2024-12-31"
           (World upload_test_data 0) (World [T005; T001; T002; T003] 3)
           eq_refl).
Defined.

(** The order on texts is transitive. *)
Lemma string_leb_trans (a b c : string) :
  (a <=? b)%string = true -> (b <=? c)%string = true -> (a <=? c)%string = true.
Proof.
  unfold String.leb. intros Hab Hbc.
  destruct (String.compare a b) eqn:Eab; try discriminate Hab.
  - apply String.compare_eq_iff in Eab. now subst.
  - destruct (String.compare b c) eqn:Ebc; try discriminate Hbc.
    + apply String.compare_eq_iff in Ebc. subst. now rewrite Eab.
    + assert (E : String.compare a c = Lt).
      { apply String_as_OT.cmp_lt.
        apply String_as_OT.lt_trans with b; now apply String_as_OT.cmp_lt. }
      now rewrite E.
Qed.

Lemma string_ltb_not_leb (a b : string) :
  (a <? b)%string = true -> (b <=? a)%string = false.
Proof.
  unfold String.ltb, String.leb. rewrite (String.compare_antisym b a).
  destruct (String.compare a b); cbn; congruence.
Qed.

(** X13. With [start_date] after [end_date] no line can match: the query
    of a user id that fits 64 bits fails with the no-transactions error
    whatever the table holds, when its statement does not raise. *)
Theorem get_summary_inverted_range (bk : backend) (user : Z) (s d : string)
    (w : world) :
  fits_int64 user = true ->
  bk SelectSummary = None ->
  (d <? s)%string = true ->
  get_summary bk user s d w
  = (Raise (Exn ValueError (NoTransactionsFound user s d)), w).
Proof.
  intros Hfit Hbk Hinv. rewrite get_summary_unfold by assumption. cbn zeta.
  replace (filter (where_clause user s d) (transactions w)) with (@nil row);
    [reflexivity|].
  symmetry. induction (transactions w) as [|r t IH]; [reflexivity|].
  cbn [filter]. rewrite <- IH.
  destruct (where_clause user s d r) eqn:E; [|reflexivity].
  apply where_clause_spec in E as (_ & ts & _ & Hs & Hd).
  pose proof (string_leb_trans _ _ _ Hs Hd) as Hsd.
  rewrite (string_ltb_not_leb _ _ Hinv) in Hsd. discriminate Hsd.
Qed.

Lemma get_summary_inverted_range_witness :
  get_summary healthy 42 "2024-12-31" "2024-01-01" (World upload_test_data 0)
  = (Raise (Exn ValueError (NoTransactionsFound 42 "2024-12-31" "2024-01-01")),
     World upload_test_data 0).
Proof.
  exact (get_summary_inverted_range healthy 42 "2024-12-31" "2024-01-01"
           (World upload_test_data 0) eq_refl eq_refl eq_refl).
Defined.

Lemma where_clause_wider (user : Z) (s d s' d' : string) (r : row) :
  (s' <=? s)%string = true -> (d <=? d')%string = true ->
  where_clause user s d r = true -> where_clause user s' d' r = true.
Proof.
  intros Hs Hd H. apply where_clause_spec in H as (Hu & ts & Ht & H1 & H2).
  apply where_clause_spec. split; [assumption|]. exists ts.
  repeat split; try assumption.
  - now apply string_leb_trans with s.
  - now apply string_leb_trans with d.
Qed.

Lemma filter_length_le {A} (f : A -> bool) (l : list A) :
  List.length (filter f l) <= List.length l.
Proof.
  induction l as [|x l IH]; [reflexivity|]. cbn.
  destruct (f x); cbn; lia.
Qed.

Lemma in_amounts (t : list row) (a : Q) :
  In a (amounts t) <-> exists r, In r t /\ transaction_amount r = Some a.
Proof.
  unfold amounts. rewrite in_flat_map. split.
  - intros (r & Hr & Ha). exists r. split; [assumption|].
    destruct (transaction_amount r) as [a'|]; [|destruct Ha].
    destruct Ha as [-> | []]. reflexivity.
  - intros (r & Hr & Ha). exists r. split; [assumption|].
    rewrite Ha. now left.
Qed.

(** X14. Widening the range never loses anything: if a query returns, the
    query of the same user over a range that starts no later and ends no
    earlier returns too, it counts at least as many lines, its maximum is
    at least as large and its minimum at most as large. *)
Theorem get_summary_wider_range (user : Z) (s d s' d' : string) (w w1 : world)
    (resp : SummaryResponse) :
  (s' <=? s)%string = true -> (d <=? d')%string = true ->
  get_summary healthy user s d w = (Return resp, w1) ->
  exists resp',
    get_summary healthy user s' d' w = (Return resp', w)
    /\ transaction_count resp <= transaction_count resp'
    /\ (max_amount resp <= max_amount resp')%Q
    /\ (min_amount resp' <= min_amount resp)%Q.
Proof.
  intros Hs Hd H.
  destruct (get_summary_Return healthy user s d w w1 resp H)
    as (mx & mn & Hmx & Hmn & Hne & Hfit & _ & _ & ->).
  set (narrow := filter (where_clause user s d) (transactions w)) in *.
  set (wide := filter (where_clause user s' d') (transactions w)).
  assert (Hsub : narrow = filter (where_clause user s d) wide).
  { unfold narrow, wide. symmetry. apply filter_filter_implied.
    intros r. now apply where_clause_wider. }
  assert (Hin : forall a, In a (amounts narrow) -> In a (amounts wide)).
  { intros a Ha. apply in_amounts in Ha as (r & Hr & Ha).
    apply in_amounts. exists r. split; [|assumption].
    rewrite Hsub in Hr. now apply filter_In in Hr. }
  destruct (aggregates_exist healthy (amounts wide))
    as (mx' & mn' & avg' & Hmx' & Hmn' & Havg').
  { apply sql_max_In, Hin in Hmx. intros E. rewrite E in Hmx. destruct Hmx. }
  rewrite get_summary_healthy by assumption. cbn zeta. fold wide.
  rewrite Hmx', Hmn', Havg'.
  assert (Hlen : List.length narrow <= List.length wide)
    by (rewrite Hsub; apply filter_length_le).
  assert (Hw : (List.length wide =? 0)%nat = false).
  { apply Nat.eqb_neq. destruct narrow; [now destruct Hne | cbn in Hlen; lia]. }
  rewrite Hw. eexists. split; [reflexivity|].
  cbn [transaction_count max_amount min_amount].
  split; [assumption|]. split.
  - pose proof (sql_max_above _ _ Hmx') as Hall. rewrite Forall_forall in Hall.
    now apply Hall, Hin, sql_max_In.
  - pose proof (sql_min_below _ _ Hmn') as Hall. rewrite Forall_forall in Hall.
    now apply Hall, Hin, sql_min_In.
Qed.

Lemma get_summary_wider_range_witness :
  exists resp',
    get_summary healthy 42 "2024-01-01" "2025-12-31" (World upload_test_data 0)
    = (Return resp', World upload_test_data 0)
    /\ transaction_count summary_of_user_42 <= transaction_count resp'
    /\ (max_amount summary_of_user_42 <= max_amount resp')%Q
    /\ (min_amount resp' <= min_amount summary_of_user_42)%Q.
Proof.
  exact (get_summary_wider_range 42 "2024-01-01" "2024-12-31"
           "2024-01-01" "2025-12-31"
           (World upload_test_data 0) (World upload_test_data 0)
           summary_of_user_42 eq_refl eq_refl eq_refl).
Defined.

(** ** Upload, then query *)

(** A query of a user id that fits 64 bits, over a table of valid lines,
    with a statement that does not raise: the no-transactions error when no
    line matches, and an answer with the number of matching lines when some
    do. *)
Lemma get_summary_valid_table (bk : backend) (user : Z) (s d : string)
    (w : world) :
  fits_int64 user = true ->
  bk SelectSummary = None ->
  Forall valid_row (transactions w) ->
  let matching := filter (where_clause user s d) (transactions w) in
  (matching = [] ->
   get_summary bk user s d w
   = (Raise (Exn ValueError (NoTransactionsFound user s d)), w))
  /\ (matching <> [] ->
      exists resp,
        get_summary bk user s d w = (Return resp, w)
        /\ transaction_count resp = List.length matching).
Proof.
  intros Hfit Hbk Hw matching.
  rewrite get_summary_unfold by assumption. cbn zeta. fold matching.
  split.
  - intros ->. reflexivity.
  - intros Hne.
    assert (Hm : Forall valid_row matching).
    { apply Forall_forall. intros x Hx. apply filter_In in Hx as [Hx _].
      rewrite Forall_forall in Hw. now apply Hw. }
    destruct (aggregates_exist bk (amounts matching))
      as (mx & mn & avg & -> & -> & ->).
    { intros E. apply (f_equal (@List.length Q)) in E.
      rewrite amounts_valid in E by assumption.
      destruct matching; [now apply Hne | discriminate E]. }
    destruct matching as [|x m]; [now destruct Hne|].
    cbn [List.length Nat.eqb]. eexists. split; reflexivity.
Qed.

(** X15. Lines that were uploaded are found: when an upload into a table
    of valid lines has returned, a query whose user and range match at
    least one line of the frames returns, and it counts the matching lines
    of the old table plus the matching lines of the frames. *)
Theorem uploaded_lines_are_found (bk : backend) (file : TextFileReader)
    (w w1 : world) (resp : UploadResponse) (user : Z) (s d : string)
    (r : row) :
  Forall valid_row (transactions w) ->
  upload_csv bk file w = (Return resp, w1) ->
  In r (List.concat (yielded file)) ->
  where_clause user s d r = true ->
  fits_int64 user = true ->
  bk SelectSummary = None ->
  exists resp',
    get_summary bk user s d w1 = (Return resp', w1)
    /\ transaction_count resp'
       = List.length (filter (where_clause user s d) (transactions w))
         + List.length (filter (where_clause user s d)
                          (List.concat (yielded file))).
Proof.
  intros Hw Hup Hr Hwc Hfit Hbk.
  destruct (upload_csv_Return bk file w w1 resp Hup) as (-> & Hv & _).
  destruct (get_summary_valid_table bk user s d
              (World (transactions w ++ List.concat (yielded file))
                 (open_connections w)) Hfit Hbk) as [_ Hsome].
  { cbn [transactions]. apply Forall_app. now split. }
  cbn [transactions] in Hsome. rewrite filter_app in Hsome.
  destruct Hsome as (resp' & Hq & Hcount).
  { intros E. apply app_eq_nil in E as [_ E].
    assert (Hin : In r (filter (where_clause user s d)
                          (List.concat (yielded file))))
      by (apply filter_In; now split).
    rewrite E in Hin. destruct Hin. }
  exists resp'. split; [exact Hq|]. now rewrite Hcount, length_app.
Qed.

Lemma uploaded_lines_are_found_witness :
  exists resp',
    get_summary healthy 44 "2024-01-01" "2024-12-31"
      (World (upload_test_data ++ [T005]) 0)
    = (Return resp', World (upload_test_data ++ [T005]) 0)
    /\ transaction_count resp'
       = List.length (filter (where_clause 44 "2024-01-01" "2024-12-31")
                        (transactions (World upload_test_data 0)))
         + List.length
             (filter (where_clause 44 "2024-01-01" "2024-12-31")
                (List.concat
                   (yielded (Yield (Frame expected_columns [T005])
                               StopIteration)))).
Proof.
  refine (uploaded_lines_are_found healthy
            (Yield (Frame expected_columns [T005]) StopIteration)
            (World upload_test_data 0) (World (upload_test_data ++ [T005]) 0)
            (uploaded_successfully 1) 44 "2024-01-01" "2024-12-31" T005
            upload_test_data_valid eq_refl _ eq_refl eq_refl eq_refl).
  now left.
Defined.

(** ** The /summary route *)

(** X16. The [/summary] route.  When [start_date] is after [end_date] it
    answers 400 without opening a connection, whatever the state of the
    storage engine.  Otherwise, for a user id that fits 64 bits, on a table
    of valid lines and when the statement does not raise, it answers 404
    with the no-transactions text when no line matches, and 200 with the
    number of matching lines when some do.  For a user id that does not
    fit, which the route lets through ([ge=1]), it answers 500 and the
    connection stays open. *)
Theorem summary_route_answers (bk : backend) (user : Z) (s d : string)
    (w : world) :
  ((d <? s)%string = true ->
   Main.summary bk user s d w
   = (Main.HTTPException 400
        (Lit ("start date (" ++ s ++ ") cannot be after end date ("
              ++ d ++ ")")), w))
  /\ ((d <? s)%string = false ->
      fits_int64 user = true ->
      bk SelectSummary = None ->
      Forall valid_row (transactions w) ->
      (filter (where_clause user s d) (transactions w) = [] ->
       Main.summary bk user s d w
       = (Main.HTTPException 404 (NoTransactionsFound user s d), w))
      /\ (filter (where_clause user s d) (transactions w) <> [] ->
          exists resp,
            Main.summary bk user s d w = (Main.Ok200 resp, w)
            /\ transaction_count resp
               = List.length (filter (where_clause user s d) (transactions w))))
  /\ ((d <? s)%string = false ->
      fits_int64 user = false ->
      bk SelectSummary = None ->
      Main.summary bk user s d w
      = (Main.HTTPException 500 (Fmt "Server Error: " (str int_too_large)),
         World (transactions w) (S (open_connections w)))).
Proof.
  split; [|split].
  - intros Hinv. unfold Main.summary. now rewrite Hinv.
  - intros Hle Hfit Hbk Hw. unfold Main.summary. rewrite Hle.
    destruct (get_summary_valid_table bk user s d w Hfit Hbk Hw)
      as [Hnone Hsome].
    split.
    + intros E. now rewrite (Hnone E).
    + intros Hne. destruct (Hsome Hne) as (resp & -> & Hcount).
      now exists resp.
  - intros Hle Hfit _. unfold Main.summary.
    now rewrite Hle, get_summary_overflow.
Qed.

(** ** The /upload route *)

Lemma string_length_append (p s : string) :
  String.length (p ++ s)%string = String.length p + String.length s.
Proof. induction p as [|a p IH]; cbn; [reflexivity | now rewrite IH]. Qed.

Lemma substring_0_all (s : string) : substring 0 (String.length s) s = s.
Proof. induction s as [|a s IH]; cbn; [reflexivity | now rewrite IH]. Qed.

Lemma substring_after_prefix (p s : string) :
  substring (String.length p) (String.length s) (p ++ s)%string = s.
Proof. induction p as [|a p IH]; cbn; [apply substring_0_all | exact IH]. Qed.

Lemma substring_split (s : string) :
  forall m, m <= String.length s ->
    s = (substring 0 m s ++ substring m (String.length s - m) s)%string.
Proof.
  induction s as [|a s IH]; intros m Hm.
  - destruct m; [reflexivity | cbn in Hm; lia].
  - destruct m as [|m].
    + cbn [substring Nat.sub String.append String.length].
      now rewrite substring_0_all.
    + cbn [substring Nat.sub String.append String.length].
      f_equal. apply IH. cbn in Hm. lia.
Qed.

(** [endswith] is true exactly of the texts that are something followed by
    the suffix. *)
Lemma endswith_iff (filename suffix : string) :
  Main.endswith filename suffix = true
  <-> exists p, filename = (p ++ suffix)%string.
Proof.
  unfold Main.endswith. rewrite andb_true_iff, Nat.leb_le, String.eqb_eq.
  split.
  - intros [Hle Hsub].
    exists (substring 0 (String.length filename - String.length suffix) filename).
    rewrite <- Hsub at 2.
    rewrite (substring_split filename
               (String.length filename - String.length suffix)) at 1 by lia.
    do 2 f_equal. lia.
  - intros (p & ->). rewrite string_length_append. split; [lia|].
    replace (String.length p + String.length suffix - String.length suffix)
      with (String.length p) by lia.
    apply substring_after_prefix.
Qed.

(** X17. The [/upload] route looks at the file name first: a name that is
    not some text followed by [.csv] is answered 400 with the name in the
    text, and the storage is not touched, no connection is opened.  A
    name that ends in [.csv] hands the file to [upload_csv]: its result is
    answered 200, a [ValueError] 400 with the text prefixed by
    "Invalid columns. " whatever the failure was, anything else 500. *)
Theorem upload_route_file_name (bk : backend) (filename : string)
    (file : TextFileReader) (w : world) :
  (~ (exists p, filename = (p ++ ".csv")%string) ->
   Main.upload bk filename file w
   = (Main.HTTPException 400 (Fmt "File must be CSV. Got: " (Lit filename)), w))
  /\ ((exists p, filename = (p ++ ".csv")%string) ->
      Main.upload bk filename file w
      = match upload_csv bk file w with
        | (Return r, w') => (Main.Ok200 r, w')
        | (Raise e, w') =>
            if isinstance_ValueError e
            then (Main.HTTPException 400 (Fmt "Invalid columns. " (str e)), w')
            else (Main.HTTPException 500 (Fmt "Server error: " (str e)), w')
        end).
Proof.
  unfold Main.upload. split; intros H.
  - destruct (Main.endswith filename ".csv") eqn:E; [|reflexivity].
    apply endswith_iff in E. contradiction.
  - apply endswith_iff in H. now rewrite H.
Qed.

Lemma upload_route_file_name_witness :
  Main.upload healthy "test.txt" (Raises database_is_locked)
    (World upload_test_data 0)
  = (Main.HTTPException 400 (Fmt "File must be CSV. Got: " (Lit "test.txt")),
     World upload_test_data 0).
Proof.
  refine (proj1 (upload_route_file_name healthy "test.txt"
                   (Raises database_is_locked) (World upload_test_data 0)) _).
  intros H. apply endswith_iff in H. discriminate H.
Defined.

(** X18. The status of an answer of [/upload] is 200, 400 or 500.  It is
    200 only when [upload_csv] returned, and 500 only when the first count
    of [upload_csv], the statement before its [try], raised something that
    is not a [ValueError]. *)
Theorem upload_route_status (bk : backend) (filename : string)
    (file : TextFileReader) (w : world) :
  (Main.status (fst (Main.upload bk filename file w)) = 200
   \/ Main.status (fst (Main.upload bk filename file w)) = 400
   \/ Main.status (fst (Main.upload bk filename file w)) = 500)
  /\ (Main.status (fst (Main.upload bk filename file w)) = 200 ->
      exists r, fst (upload_csv bk file w) = Return r
                /\ fst (Main.upload bk filename file w) = Main.Ok200 r)
  /\ (Main.status (fst (Main.upload bk filename file w)) = 500 ->
      exists e, bk SelectCountBefore = Some e
                /\ isinstance_ValueError e = false).
Proof.
  unfold Main.upload.
  destruct (negb (Main.endswith filename ".csv")).
  { cbn. split; [tauto|]. split; discriminate. }
  destruct (bk SelectCountBefore) as [e0|] eqn:Hbk.
  - rewrite (upload_csv_raise_before_try bk e0 file w Hbk).
    destruct (isinstance_ValueError e0) eqn:Hv; cbn.
    + split; [tauto|]. split; discriminate.
    + split; [tauto|]. split; [discriminate|]. intros _. now exists e0.
  - pose proof (upload_csv_in_try bk file w Hbk) as H. cbn zeta in H.
    rewrite H. clear H.
    destruct (fst (try_body _ _ _ _)) as [n|e]; cbn [fst].
    + cbn. split; [tauto|]. split; [eauto | discriminate].
    + pose proof (except_ValueError e
                    (snd (try_body bk (List.length (transactions w)) file
                            (fst (connect w))))) as Hc.
      unfold isinstance_ValueError. rewrite Hc. cbn.
      split; [tauto|]. split; discriminate.
Qed.

Lemma upload_route_status_witness :
  exists e,
    fails_on SelectCountBefore database_is_locked SelectCountBefore = Some e
    /\ isinstance_ValueError e = false.
Proof.
  exact (proj2 (proj2 (upload_route_status
                         (fails_on SelectCountBefore database_is_locked)
                         "test.csv"
                         (Pandas.read_csv (Csv expected_columns [T005]))
                         (World upload_test_data 0))) eq_refl).
Defined.

Lemma summary_route_answers_witness :
  (exists resp,
     Main.summary healthy 42 "2024-01-01" "2024-12-31" (World upload_test_data 0)
     = (Main.Ok200 resp, World upload_test_data 0)
     /\ transaction_count resp
        = List.length (filter (where_clause 42 "2024-01-01" "2024-12-31")
                         (transactions (World upload_test_data 0))))
  /\ Main.summary healthy 42 "2024-12-31" "2024-01-01" (World upload_test_data 0)
     = (Main.HTTPException 400
          (Lit "start date (2024-12-31) cannot be after end date (2024-01-01)"),
        World upload_test_data 0)
  /\ Main.summary healthy 9223372036854775808 "2024-01-01" "2024-12-31"
       (World upload_test_data 0)
     = (Main.HTTPException 500 (Fmt "Server Error: " (str int_too_large)),
        World upload_test_data 1).
Proof.
  split; [|split].
  - refine (proj2 (proj1 (proj2 (summary_route_answers healthy 42
                                   "2024-01-01" "2024-12-31"
                                   (World upload_test_data 0)))
                     eq_refl eq_refl eq_refl upload_test_data_valid) _).
    discriminate.
  - exact (proj1 (summary_route_answers healthy 42 "2024-12-31" "2024-01-01"
                    (World upload_test_data 0)) eq_refl).
  - exact (proj2 (proj2 (summary_route_answers healthy 9223372036854775808
                           "2024-01-01" "2024-12-31"
                           (World upload_test_data 0)))
             eq_refl eq_refl eq_refl).
Defined.

Lemma clear_route_answers_witness :
  (exists r,
     Main.clear healthy (World upload_test_data 0) = (inl r, World [] 0))
  /\ Main.clear (fails_on DeleteAll database_is_locked)
       (World upload_test_data 0)
     = (inr database_is_locked, World upload_test_data 1)
  /\ Main.clear (fails_on Commit database_is_locked) (World upload_test_data 0)
     = (inr database_is_locked, World upload_test_data 1).
Proof.
  split; [|split].
  - exact (proj1 (proj2 (clear_route_answers healthy
                           (World upload_test_data 0))) eq_refl eq_refl).
  - exact (proj1 (proj2 (proj2
             (clear_route_answers (fails_on DeleteAll database_is_locked)
                (World upload_test_data 0)))) database_is_locked eq_refl).
  - exact (proj1 (proj2 (proj2 (proj2
             (clear_route_answers (fails_on Commit database_is_locked)
                (World upload_test_data 0))))) database_is_locked
             eq_refl eq_refl).
Defined.

(** ** Reset, then upload *)

(** X19. After a reset every good upload goes through, whatever the table
    held before and even if the same lines had been uploaded already: when
    the reader comes to its end, its first frame carries the expected
    header, and the lines of its frames are valid with pairwise distinct
    transaction ids, the upload succeeds, it reports the number of lines,
    and the table is exactly these lines. *)
Theorem clear_then_upload (bk : backend) (file : TextFileReader) (w : world) :
  never_raises bk ->
  stops file ->
  expected_header file ->
  Forall valid_row (List.concat (yielded file)) ->
  NoDup (keys (List.concat (yielded file))) ->
  forall w1, w1 = snd (clear bk w) ->
    upload_csv bk file w1
    = (Return (uploaded_successfully
                 (List.length (List.concat (yielded file)))),
       World (List.concat (yielded file)) (open_connections w)).
Proof.
  intros Hbk Hstop Hhead Hv Hnd w1 ->.
  unfold clear. cbn [connect]. rewrite (Hbk DeleteAll), (Hbk Commit).
  cbn [snd close commit disk view open_connections pred].
  rewrite upload_csv_good_reader; try assumption.
  - reflexivity.
  - intros k _ H. exact H.
Qed.

Lemma clear_then_upload_witness :
  upload_csv healthy
    (Yield (Frame expected_columns upload_test_data) StopIteration) (World [] 0)
  = (Return (uploaded_successfully
               (List.length
                  (List.concat
                     (yielded (Yield (Frame expected_columns upload_test_data)
                                 StopIteration))))),
     World (List.concat
              (yielded (Yield (Frame expected_columns upload_test_data)
                          StopIteration)))
           (open_connections (World upload_test_data 0))).
Proof.
  refine (clear_then_upload healthy
            (Yield (Frame expected_columns upload_test_data) StopIteration)
            (World upload_test_data 0) healthy_never_raises I eq_refl _ _
            (World [] 0) eq_refl).
  - cbn [yielded List.concat rows]. rewrite app_nil_r.
    exact upload_test_data_valid.
  - cbn [yielded List.concat rows]. rewrite app_nil_r.
    apply valid_store_keys.
    split; [exact upload_test_data_valid | exact upload_test_data_NoDup].
Defined.

(** ** Files that pandas cannot read *)

(** X20. When [pd.read_csv] raises before the first chunk, the class of
    its exception decides the text of the [ValueError]: "CSV file is empty"
    for [EmptyDataError], "Invalid CSV format: " and pandas' text for
    [ParserError], and "ERROR: " and the text for anything else.  In each
    case the table is unchanged and the connection is closed. *)
Theorem upload_csv_unreadable_file (bk : backend) (e : exn) (w : world) :
  bk SelectCountBefore = None ->
  upload_csv bk (Raises e) w
  = (Raise (Exn ValueError
              match cls e with
              | EmptyDataError => Lit "CSV file is empty"
              | ParserError => Fmt "Invalid CSV format: " (str e)
              | _ => Fmt "ERROR: " (str e)
              end), w).
Proof.
  intros Hbk. rewrite upload_csv_in_try by assumption.
  unfold try_body. cbn [for_chunk_in connect fst snd]. unfold except.
  destruct (cls e); cbn; now rewrite world_eta.
Qed.

Lemma upload_csv_unreadable_file_witness :
  upload_csv healthy
    (Raises (Exn ParserError (Lit "Error tokenizing data")))
    (World upload_test_data 0)
  = (Raise (Exn ValueError
              (Fmt "Invalid CSV format: " (Lit "Error tokenizing data"))),
     World upload_test_data 0).
Proof.
  exact (upload_csv_unreadable_file healthy
           (Exn ParserError (Lit "Error tokenizing data"))
           (World upload_test_data 0) eq_refl).
Defined.
